(** * gitlab-lfs-get: a shallow embedding of [gitlab-lfs-get.py]

    The script downloads one Git-LFS object from a GitLab server in three
    dependent HTTP calls.  This development embeds the script as a program in
    a small state-and-exception monad over an explicit [World] (environment
    variables, command line, HTTP answers, file opening) and proves properties
    of the traces that program produces.

    Conventions.
    - A Python [str] is a [string]: its characters are the code points below
      256.  The interpreter primitives the script relies on ([str.strip],
      [str.split], [int], [repr], [urllib.parse.quote_plus], [b64encode]) are
      written out for that range, as CPython 3.7 to 3.10 defines them
      (messages of built-in exceptions in the wording of those releases; the
      configurable cap on the number of digits [int] accepts is left out).
    - An exception is a value [Exn]; a computation returns [Ok v] or
      [Raise e].
    - Everything the script does to the outside is an [Event] appended to the
      trace, in program order.
    - The libraries are taken at their documented behaviour: [load_dotenv]
      adds the entries of the environment file that the process environment
      does not define; [requests] answers a call with a response or raises;
      [argparse] parses the command line or exits; [tqdm] only displays.
      Paths are joined as [pathlib] does on POSIX. *)

From Stdlib Require Import ZArith NArith List Bool Ascii String Lia.
From Stdlib Require Import DecimalString.
Import ListNotations.

Local Open Scope string_scope.
Local Open Scope Z_scope.

(* ================================================================= *)
(** ** Interpreter primitives on strings *)

Module Py.

Definition ord (c : ascii) : Z := Z.of_N (N_of_ascii c).
Definition chr (n : Z) : ascii := ascii_of_N (Z.to_N n).

Definition double_quote : ascii := chr 34.
Definition single_quote : ascii := chr 39.
Definition backslash : ascii := chr 92.
Definition newline : ascii := chr 10.

(** [str.isspace] on one character: the code points CPython lists as
    whitespace, below 256. *)
Definition isspace (c : ascii) : bool :=
  let n := ord c in
  ((9 <=? n) && (n <=? 13)) || ((28 <=? n) && (n <=? 32))
  || (n =? 133) || (n =? 160).

Definition isdigit (c : ascii) : bool :=
  let n := ord c in (48 <=? n) && (n <=? 57).

(** [s.startswith(p)] *)
Definition startswith (s p : string) : bool := String.prefix p s.

(** [c in s] for a one-character [c] *)
Fixpoint contains (c : ascii) (s : string) : bool :=
  match s with
  | EmptyString => false
  | String d s' => Ascii.eqb c d || contains c s'
  end.

Fixpoint lstrip (s : string) : string :=
  match s with
  | EmptyString => EmptyString
  | String c s' => if isspace c then lstrip s' else s
  end.

Fixpoint rstrip (s : string) : string :=
  match s with
  | EmptyString => EmptyString
  | String c s' =>
      match rstrip s' with
      | EmptyString => if isspace c then EmptyString else String c EmptyString
      | r => String c r
      end
  end.

(** [s.strip()] *)
Definition strip (s : string) : string := rstrip (lstrip s).

(** [s.split(sep)] for a one-character separator: every occurrence splits,
    empty fields are kept. *)
Fixpoint split (s : string) (sep : ascii) : list string :=
  match s with
  | EmptyString => [EmptyString]
  | String c s' =>
      if Ascii.eqb c sep then EmptyString :: split s' sep
      else match split s' sep with
           | h :: t => String c h :: t
           | [] => [String c EmptyString]
           end
  end.

Fixpoint split_ws_from (cur : string) (s : string) : list string :=
  match s with
  | EmptyString => if String.eqb cur "" then [] else [cur]
  | String c s' =>
      if isspace c
      then (if String.eqb cur "" then split_ws_from "" s'
            else cur :: split_ws_from "" s')
      else split_ws_from (cur ++ String c "") s'
  end.

(** [s.split()]: the maximal runs of non-whitespace characters. *)
Definition split_ws (s : string) : list string := split_ws_from "" s.

Fixpoint lines_from (cur : string) (s : string) : list string :=
  match s with
  | EmptyString => if String.eqb cur "" then [] else [cur]
  | String c s' =>
      if Ascii.eqb c newline
      then (cur ++ String c "") :: lines_from "" s'
      else lines_from (cur ++ String c "") s'
  end.

(** Iterating over [io.StringIO(s)]: the lines of [s], each with its
    terminating line feed; only the line feed ends a line. *)
Definition StringIO_lines (s : string) : list string := lines_from "" s.

(** [s.rsplit('/')[-1]]: the part after the last [sep]. *)
Definition last_field (s : string) (sep : ascii) : string :=
  last (split s sep) "".

(** [str.lower] on one character. *)
Definition lower_char (c : ascii) : ascii :=
  let n := ord c in
  if ((65 <=? n) && (n <=? 90))
     || ((192 <=? n) && (n <=? 222) && negb (n =? 215))
  then chr (n + 32) else c.

Fixpoint lower (s : string) : string :=
  match s with
  | EmptyString => EmptyString
  | String c s' => String (lower_char c) (lower s')
  end.

(** Decimal text of an integer, as [str(n)] prints it. *)
Definition str_of_int (n : Z) : string := NilZero.string_of_int (Z.to_int n).

Definition hex_digit (upper : bool) (n : Z) : ascii :=
  if n <? 10 then chr (48 + n)
  else chr ((if upper then 55 else 87) + n).

(** Two hexadecimal digits of a byte. *)
Definition hex2 (upper : bool) (n : Z) : string :=
  String (hex_digit upper (n / 16)) (String (hex_digit upper (n mod 16)) "").

(** The first [n] characters of [s]. *)
Fixpoint take (n : nat) (s : string) : string :=
  match n, s with
  | S n', String c s' => String c (take n' s')
  | _, _ => EmptyString
  end.

(** *** [repr] of a string *)

Definition isprintable (c : ascii) : bool :=
  let n := ord c in
  ((32 <=? n) && (n <? 127)) || ((161 <=? n) && negb (n =? 173)).

Definition repr_char (quote c : ascii) : string :=
  let n := ord c in
  if Ascii.eqb c quote || Ascii.eqb c backslash
  then String backslash (String c "")
  else if n =? 9 then String backslash "t"
  else if n =? 10 then String backslash "n"
  else if n =? 13 then String backslash "r"
  else if isprintable c then String c ""
  else String backslash (String "x" (hex2 false n)).

Fixpoint repr_body (quote : ascii) (s : string) : string :=
  match s with
  | EmptyString => EmptyString
  | String c s' => repr_char quote c ++ repr_body quote s'
  end.

Definition repr (s : string) : string :=
  let quote :=
    if contains single_quote s && negb (contains double_quote s)
    then double_quote else single_quote in
  String quote (repr_body quote s ++ String quote "").

(** *** [int(s)] for a string *)

Definition int_isspace (c : ascii) : bool :=
  let n := ord c in
  ((9 <=? n) && (n <=? 13)) || (n =? 32) || (n =? 133) || (n =? 160).

Fixpoint int_lskip (s : string) : string :=
  match s with
  | EmptyString => EmptyString
  | String c s' => if int_isspace c then int_lskip s' else s
  end.

Fixpoint int_rskip (s : string) : string :=
  match s with
  | EmptyString => EmptyString
  | String c s' =>
      match int_rskip s' with
      | EmptyString =>
          if int_isspace c then EmptyString else String c EmptyString
      | r => String c r
      end
  end.

(** Digits, with single underscores allowed between two digits. *)
Fixpoint digits_value (acc : Z) (after_digit : bool) (s : string) : option Z :=
  match s with
  | EmptyString => if after_digit then Some acc else None
  | String c s' =>
      if isdigit c then digits_value (10 * acc + (ord c - 48)) true s'
      else if Ascii.eqb c "_"
           then (if after_digit then digits_value acc false s' else None)
           else None
  end.

(** [int(s)]: [None] stands for the [ValueError]. *)
Definition int (s : string) : option Z :=
  match int_rskip (int_lskip s) with
  | String "+" r => digits_value 0 false r
  | String "-" r => option_map Z.opp (digits_value 0 false r)
  | t => digits_value 0 false t
  end.

(** *** [int(a / 2**k)] for integers: true division to a double, then
    truncation.  The quotient is rounded to 53 significant bits, ties to
    even; [None] stands for the [OverflowError] of a quotient at or beyond
    [2**1024]. *)
Definition int_truediv_pow2 (a k : Z) : option Z :=
  let m := Z.abs a in
  if m =? 0 then Some 0 else
  let s := Z.log2 m + 1 - 53 in
  let r :=
    if s <=? 0 then m
    else
      let q := Z.shiftr m s in
      let rest := m mod (2 ^ s) in
      let half := 2 ^ (s - 1) in
      let up := (half <? rest) || ((half =? rest) && Z.odd q) in
      Z.shiftl (if up then q + 1 else q) s in
  if 2 ^ (1024 + k) <=? r then None
  else Some (Z.sgn a * Z.shiftr r k).

(** *** UTF-8, percent-encoding, base64 *)

Definition utf8_char (c : ascii) : list Z :=
  let n := ord c in
  if n <? 128 then [n]
  else [Z.lor 192 (Z.shiftr n 6); Z.lor 128 (Z.land n 63)].

Fixpoint utf8 (s : string) : list Z :=
  match s with
  | EmptyString => []
  | String c s' => utf8_char c ++ utf8 s'
  end.

(** The characters [urllib.parse.quote] never encodes. *)
Definition always_safe (b : Z) : bool :=
  ((65 <=? b) && (b <=? 90)) || ((97 <=? b) && (b <=? 122))
  || ((48 <=? b) && (b <=? 57))
  || (b =? 95) || (b =? 46) || (b =? 45) || (b =? 126).

Definition quote_byte (safe : string) (b : Z) : string :=
  if always_safe b || ((b <? 128) && contains (chr b) safe)
  then String (chr b) ""
  else String "%" (hex2 true b).

(** [''.join(l)] *)
Fixpoint join (l : list string) : string :=
  match l with
  | [] => ""
  | x :: l' => x ++ join l'
  end.

(** [urllib.parse.quote(s, safe)] *)
Definition quote (s : string) (safe : string) : string :=
  join (map (quote_byte safe) (utf8 s)).

Fixpoint replace_char (s : string) (old new : ascii) : string :=
  match s with
  | EmptyString => EmptyString
  | String c s' =>
      String (if Ascii.eqb c old then new else c) (replace_char s' old new)
  end.

(** [urllib.parse.quote_plus(s)] *)
Definition quote_plus (s : string) : string :=
  if contains " " s
  then replace_char (quote s " ") " " "+"
  else quote s "".

Definition b64_alphabet : string :=
  "ABCDEFGHIJKLMNOPQRSTUVWXYZabcdefghijklmnopqrstuvwxyz0123456789+/".

Definition b64_digit (n : Z) : ascii :=
  match String.get (Z.to_nat n) b64_alphabet with
  | Some c => c
  | None => "="%char
  end.

Fixpoint b64_groups (fuel : nat) (bs : list Z) : string :=
  match fuel with
  | O => ""
  | S fuel' =>
      match bs with
      | [] => ""
      | [a] =>
          String (b64_digit (Z.shiftr a 2))
         (String (b64_digit (Z.shiftl (Z.land a 3) 4)) "==")
      | [a; b] =>
          String (b64_digit (Z.shiftr a 2))
         (String (b64_digit (Z.lor (Z.shiftl (Z.land a 3) 4) (Z.shiftr b 4)))
         (String (b64_digit (Z.shiftl (Z.land b 15) 2)) "="))
      | a :: b :: c :: rest =>
          String (b64_digit (Z.shiftr a 2))
         (String (b64_digit (Z.lor (Z.shiftl (Z.land a 3) 4) (Z.shiftr b 4)))
         (String (b64_digit (Z.lor (Z.shiftl (Z.land b 15) 2) (Z.shiftr c 6)))
         (String (b64_digit (Z.land c 63)) (b64_groups fuel' rest))))
      end
  end.

(** [b64encode(bs).decode("ascii")] *)
Definition b64encode (bs : list Z) : string :=
  b64_groups (S (List.length bs)) bs.

End Py.

(** The line feed, as a string. *)
Definition LF : string := String Py.newline "".


(* ================================================================= *)
(** ** Values decoded from JSON *)

#[local] Set Warnings "-register-all".

Inductive json :=
| JNull
| JBool (b : bool)
| JInt (n : Z)
| JFloat (literal : string)
| JStr (s : string)
| JArr (items : list json)
| JObj (members : list (string * json)).

(** A Python [dict] built from a list of members: a later member replaces an
    earlier one with the same key. *)
Fixpoint dict_get {A : Type} (members : list (string * A)) (k : string)
  : option A :=
  match members with
  | [] => None
  | (k', v) :: rest =>
      match dict_get rest k with
      | Some v' => Some v'
      | None => if String.eqb k' k then Some v else None
      end
  end.

(** [type(v).__name__] of a decoded value. *)
Definition json_type_name (v : json) : string :=
  match v with
  | JNull => "NoneType"
  | JBool _ => "bool"
  | JInt _ => "int"
  | JFloat _ => "float"
  | JStr _ => "str"
  | JArr _ => "list"
  | JObj _ => "dict"
  end.

(* ================================================================= *)
(** ** Exceptions and HTTP responses *)

Module Cls.

(** The exception classes the script can meet.  [ConnectionError] is the
    built-in class (and, by [name], its built-in subclasses);
    [RequestException] stands for the classes of [requests.exceptions] other
    than [HTTPError], among them the [ConnectionError] of that library, which
    is what [requests] raises when a host cannot be resolved or refuses the
    connection; it derives from [RequestException], not from the built-in
    [ConnectionError]. *)
Inductive t :=
| RuntimeError
| KeyError
| IndexError
| TypeError
| ValueError
| OverflowError
| UnboundLocalError
| AttributeError
| JSONDecodeError
| OSError (name : string)
| ConnectionError (name : string)
| NewConnectionError
| HTTPError
| RequestException (name : string)
| OtherException (name : string)
| SystemExit (code : Z).

(** [type(ex).__name__] *)
Definition name (c : t) : string :=
  match c with
  | RuntimeError => "RuntimeError"
  | KeyError => "KeyError"
  | IndexError => "IndexError"
  | TypeError => "TypeError"
  | ValueError => "ValueError"
  | OverflowError => "OverflowError"
  | UnboundLocalError => "UnboundLocalError"
  | AttributeError => "AttributeError"
  | JSONDecodeError => "JSONDecodeError"
  | OSError n => n
  | ConnectionError n => n
  | NewConnectionError => "NewConnectionError"
  | HTTPError => "HTTPError"
  | RequestException n => n
  | OtherException n => n
  | SystemExit _ => "SystemExit"
  end.

(** [isinstance(ex, Exception)]: everything but [SystemExit]. *)
Definition is_Exception (c : t) : bool :=
  match c with SystemExit _ => false | _ => true end.

(** [isinstance(ex, (NewConnectionError, ConnectionError))], the names as
    the script binds them: [NewConnectionError] from [urllib3.connection],
    [ConnectionError] the built-in. *)
Definition is_connection_failure (c : t) : bool :=
  match c with
  | NewConnectionError | ConnectionError _ => true
  | _ => false
  end.

Definition is_HTTPError (c : t) : bool :=
  match c with HTTPError => true | _ => false end.

Definition is_KeyError (c : t) : bool :=
  match c with KeyError => true | _ => false end.

Definition is_IndexError (c : t) : bool :=
  match c with IndexError => true | _ => false end.

Definition is_RuntimeError (c : t) : bool :=
  match c with RuntimeError => true | _ => false end.

End Cls.

(** What a [requests.Response] offers to the script.  [resp_json] is the
    outcome of [resp.json()]: the decoded body, or the message of the decoding
    error.  [iter_content] is what iterating [resp.iter_content(1024)]
    yields, followed by [iter_error] when the stream breaks. *)
Record Response := {
  status_code : Z;
  reason : string;
  url : string;
  text : string;
  resp_json : json + string;
  headers : list (string * string);
  iter_content : list string;
  iter_error : option (Cls.t * string)
}.

(** An exception: its class, [str(ex)], and [ex.response] where it has
    one. *)
Record Exn := {
  exn_class : Cls.t;
  exn_str : string;
  exn_response : option Response
}.

Definition exn (c : Cls.t) (msg : string) : Exn :=
  {| exn_class := c; exn_str := msg; exn_response := None |}.

Definition RuntimeError (msg : string) : Exn := exn Cls.RuntimeError msg.
Definition KeyError (key : string) : Exn := exn Cls.KeyError (Py.repr key).
Definition KeyError_int (key : Z) : Exn :=
  exn Cls.KeyError (Py.str_of_int key).
Definition IndexError (msg : string) : Exn := exn Cls.IndexError msg.
Definition TypeError (msg : string) : Exn := exn Cls.TypeError msg.
Definition ValueError (msg : string) : Exn := exn Cls.ValueError msg.
Definition OverflowError (msg : string) : Exn := exn Cls.OverflowError msg.
Definition UnboundLocalError (var : string) : Exn :=
  exn Cls.UnboundLocalError
      ("local variable '" ++ var ++ "' referenced before assignment").
Definition AttributeError_None (attr : string) : Exn :=
  exn Cls.AttributeError
      ("'NoneType' object has no attribute '" ++ attr ++ "'").
Definition HTTPError (msg : string) (r : Response) : Exn :=
  {| exn_class := Cls.HTTPError; exn_str := msg; exn_response := Some r |}.

Inductive Result (A : Type) :=
| Ok (a : A)
| Raise (e : Exn).
Arguments Ok {A} a.
Arguments Raise {A} e.

(** [v[key]] for a string [key]. *)
Definition getitem (v : json) (key : string) : Result json :=
  match v with
  | JObj members =>
      match dict_get members key with
      | Some x => Ok x
      | None => Raise (KeyError key)
      end
  | JArr _ =>
      Raise (TypeError "list indices must be integers or slices, not str")
  | JStr _ => Raise (TypeError "string indices must be integers")
  | _ => Raise (TypeError ("'" ++ json_type_name v
                             ++ "' object is not subscriptable"))
  end.

(** [v[0]] *)
Definition getitem_0 (v : json) : Result json :=
  match v with
  | JArr (x :: _) => Ok x
  | JArr [] => Raise (IndexError "list index out of range")
  | JStr (String c _) => Ok (JStr (String c ""))
  | JStr EmptyString => Raise (IndexError "string index out of range")
  | JObj _ => Raise (KeyError_int 0)
  | _ => Raise (TypeError ("'" ++ json_type_name v
                             ++ "' object is not subscriptable"))
  end.

(** [resp.headers[name]]: the header mapping of [requests] ignores case and
    reports a missing header by its lower-cased name. *)
Definition headers_getitem (h : list (string * string)) (name : string)
  : Result string :=
  match dict_get (map (fun kv => (Py.lower (fst kv), snd kv)) h)
                 (Py.lower name) with
  | Some v => Ok v
  | None => Raise (KeyError (Py.lower name))
  end.

(** [int(s)] with its [ValueError]: the interpreter formats the literal
    with [%.200R], the first 200 characters of its [repr]. *)
Definition int_of_str (s : string) : Result Z :=
  match Py.int s with
  | Some n => Ok n
  | None =>
      Raise (ValueError ("invalid literal for int() with base 10: "
                           ++ Py.take 200 (Py.repr s)))
  end.

(** [int(n / 1024)] with its [OverflowError]. *)
Definition int_div_chunk (n : Z) : Result Z :=
  match Py.int_truediv_pow2 n 10 with
  | Some q => Ok q
  | None => Raise (OverflowError "integer division result too large for a float")
  end.

(* ================================================================= *)
(** ** The outside world and the trace *)

(** The keyword arguments [params] handed to [requests.request]. *)
Record Params := {
  p_method : string;
  p_url : string;
  p_headers : option (list (string * string));
  p_timeout : Z;
  p_verify : bool;
  p_json : option (list (string * json))
}.

(** The two ways the script reaches the network.  [requests_get] is
    [requests.get(url, headers=header, stream=True)]: it is given neither
    [verify] nor [timeout], and both arguments are values taken out of a
    decoded JSON body. *)
Inductive HttpCall :=
| requests_request (params : Params)
| requests_get (url : json) (header : json) (stream : bool).

Inductive HttpOutcome :=
| Responds (r : Response)
| Fails (e : Exn).

(** What a run does to the outside.  [LogInfoFmt prefix v] is the line
    [LOG.info(f'{prefix}{v}')] for a value [v] taken out of a decoded JSON
    body, which the interpreter formats. *)
Inductive Event :=
| LogInfo (msg : string)
| LogInfoFmt (prefix : string) (v : json)
| LogError (msg : string)
| Http (call : HttpCall)
| Open (path : string)
| Progress (total : Z) (desc : string)
| Write (path : string) (chunk : string).

(** What [argparse] makes of the command line. *)
Inductive CliOutcome :=
| Parsed (project ref file : string) (output_dir : option string)
| Exits (code : Z).

Record World := {
  os_environ : list (string * string);
  dotenv : list (string * string);
  argv : CliOutcome;
  cwd : string;
  resolve : string -> string;
  http : HttpCall -> HttpOutcome;
  open_wb : string -> option Exn
}.

(** [requests] verifies certificates unless it is told not to. *)
Definition verifies (c : HttpCall) : bool :=
  match c with
  | requests_request p => p_verify p
  | requests_get _ _ _ => true
  end.

(* ================================================================= *)
(** ** The monad: a trace and exceptions *)

Definition M (A : Type) : Type := list Event -> Result A * list Event.

Definition ret {A} (a : A) : M A := fun t => (Ok a, t).
Definition raise {A} (e : Exn) : M A := fun t => (Raise e, t).
Definition lift {A} (r : Result A) : M A := fun t => (r, t).
Definition emit (ev : Event) : M unit := fun t => (Ok tt, (t ++ [ev])%list).

Definition bind {A B} (m : M A) (f : A -> M B) : M B :=
  fun t =>
    match m t with
    | (Ok a, t') => f a t'
    | (Raise e, t') => (Raise e, t')
    end.

(** [try: m except: h] where [h] decides by itself what it catches. *)
Definition try_except {A} (m : M A) (h : Exn -> M A) : M A :=
  fun t =>
    match m t with
    | (Ok a, t') => (Ok a, t')
    | (Raise e, t') => h e t'
    end.

Notation "x <- m ;; k" := (bind m (fun x => k))
  (at level 61, m at next level, right associativity).
Notation "m ;;; k" := (bind m (fun _ => k))
  (at level 61, right associativity).


(* ================================================================= *)
(** ** The script *)

(** The module-level names set by the configuration block. *)
Record Config := {
  GIT_HOST : string;
  GIT_TOKEN : string;
  GIT_USER : string;
  GIT_PWD : string;
  BASIC_AUTH : string
}.

(** The module-level names set by [cli()]. *)
Record Args := {
  PROJECT : string;
  REF : string;
  FILE : string;
  OUTPUT : string
}.

(** The local names [oid] and [size] of [get_lfs_meta]; [None] while a name
    is unbound. *)
Record Locals := {
  l_oid : option string;
  l_size : option string
}.

(** [l[1]] on a list of strings *)
Definition item_1 (l : list string) : Result string :=
  match nth_error l 1 with
  | Some x => Ok x
  | None => Raise (IndexError "list index out of range")
  end.

(** One turn of the loop of [get_lfs_meta] on the line [line]. *)
Definition meta_line (st : Locals) (line : string) : Result Locals :=
  if Py.startswith line "oid" then
    match item_1 (Py.split (Py.strip line) ":") with
    | Ok v => Ok {| l_oid := Some v; l_size := l_size st |}
    | Raise e => Raise e
    end
  else if Py.startswith line "size" then
    match item_1 (Py.split_ws (Py.strip line)) with
    | Ok v => Ok {| l_oid := l_oid st; l_size := Some v |}
    | Raise e => Raise e
    end
  else Ok st.

Fixpoint meta_loop (st : Locals) (lines : list string) : Result Locals :=
  match lines with
  | [] => Ok st
  | line :: rest =>
      match meta_line st line with
      | Ok st' => meta_loop st' rest
      | Raise e => Raise e
      end
  end.

(** The part of [get_lfs_meta] after the request: the loop over the lines of
    the body, then [return oid, size]. *)
Definition parse_pointer (body : string) : Result (string * string) :=
  match meta_loop {| l_oid := None; l_size := None |}
                  (Py.StringIO_lines body) with
  | Raise e => Raise e
  | Ok st =>
      match l_oid st with
      | None => Raise (UnboundLocalError "oid")
      | Some oid =>
          match l_size st with
          | None => Raise (UnboundLocalError "size")
          | Some size => Ok (oid, size)
          end
      end
  end.

(** [Response.raise_for_status] *)
Definition raise_for_status (r : Response) : Result unit :=
  let s := status_code r in
  if (400 <=? s) && (s <? 500) then
    Raise (HTTPError (Py.str_of_int s ++ " Client Error: " ++ reason r
                        ++ " for url: " ++ url r) r)
  else if (500 <=? s) && (s <? 600) then
    Raise (HTTPError (Py.str_of_int s ++ " Server Error: " ++ reason r
                        ++ " for url: " ++ url r) r)
  else Ok tt.

Definition path_join (dir name : string) : string :=
  if String.eqb name "" || String.eqb name "." then dir
  else if String.eqb dir "/" then dir ++ name
  else dir ++ "/" ++ name.

Section Script.

Variable w : World.

(** Calling [requests]: the call is recorded, the world answers. *)
Definition call (c : HttpCall) : M Response :=
  emit (Http c) ;;;
  match http w c with
  | Responds r => ret r
  | Fails e => raise e
  end.

(** [os.environ[name]] once [load_dotenv()] has run: a variable of the
    process wins over the same variable of the file. *)
Definition environ_getitem (name : string) : Result string :=
  match dict_get (os_environ w) name with
  | Some v => Ok v
  | None =>
      match dict_get (dotenv w) name with
      | Some v => Ok v
      | None => Raise (KeyError name)
      end
  end.

(** The body of the first [try] of the module. *)
Definition load_config : Result Config :=
  match environ_getitem "GIT_HOST" with
  | Raise e => Raise e
  | Ok host =>
  match environ_getitem "GIT_TOKEN" with
  | Raise e => Raise e
  | Ok token =>
  match environ_getitem "GIT_USER" with
  | Raise e => Raise e
  | Ok user =>
  match environ_getitem "GIT_PWD" with
  | Raise e => Raise e
  | Ok pwd =>
      let b64 := Py.b64encode (Py.utf8 (user ++ ":" ++ pwd)) in
      Ok {| GIT_HOST := host; GIT_TOKEN := token; GIT_USER := user;
            GIT_PWD := pwd; BASIC_AUTH := "Basic " ++ b64 |}
  end end end end.

Definition cli : M Args :=
  match argv w with
  | Exits code => raise (exn (Cls.SystemExit code) (Py.str_of_int code))
  | Parsed project ref file output_dir =>
      let output :=
        match output_dir with
        | Some d => if String.eqb d "" then cwd w else resolve w d
        | None => cwd w
        end in
      ret {| PROJECT := project; REF := ref; FILE := file; OUTPUT := output |}
  end.

Definition request (path : string) (method : string)
    (header : option (list (string * string)))
    (req_data : option (list (string * json))) (timeout : Z)
  : M (option Response) :=
  if negb (existsb (String.eqb method) ["GET"; "POST"; "PATCH"; "DELETE"])
  then raise (RuntimeError ("Unsupport method: " ++ method))
  else
    let params :=
      {| p_method := method; p_url := path; p_headers := header;
         p_timeout := timeout; p_verify := false;
         p_json := match req_data with
                   | Some (_ :: _) => req_data
                   | _ => None
                   end |} in
    try_except
      (resp <- call (requests_request params) ;;
       lift (raise_for_status resp) ;;;
       ret (Some resp))
      (fun ex =>
         if Cls.is_connection_failure (exn_class ex) then
           raise (RuntimeError ("Connection failed: "
                                  ++ Cls.name (exn_class ex)))
         else if Cls.is_HTTPError (exn_class ex) then
           match exn_response ex with
           | None => raise (AttributeError_None "status_code")
           | Some r =>
               let status := status_code r in
               if (400 <=? status) && (status <? 500) then
                 raise (RuntimeError ("Client Error: " ++ exn_str ex))
               else if (500 <=? status) && (status <? 600) then
                 raise (RuntimeError ("Server Error: " ++ exn_str ex))
               else ret None
           end
         else if Cls.is_Exception (exn_class ex) then
           raise (RuntimeError (exn_str ex))
         else raise ex).

Section Pipeline.

Variable cfg : Config.
Variable args : Args.

(** The URL of the raw-file endpoint, as [get_lfs_meta] formats it. *)
Definition meta_path : string :=
  "http://" ++ GIT_HOST cfg ++ "/api/v4/projects/"
    ++ Py.quote_plus (PROJECT args) ++ "/repository/files/" ++ FILE args
    ++ "/raw?ref=" ++ REF args.

Definition get_lfs_meta : M (string * string) :=
  emit (LogInfo "Get LFS meta-data") ;;;
  let header := [("PRIVATE-TOKEN", GIT_TOKEN cfg)] in
  resp <- request meta_path "GET" (Some header) None 30 ;;
  match resp with
  | None => raise (AttributeError_None "text")
  | Some r => lift (parse_pointer (text r))
  end.

(** The URL of the batch endpoint. *)
Definition batch_path : string :=
  "http://" ++ GIT_HOST cfg ++ "/" ++ PROJECT args
    ++ ".git/info/lfs/objects/batch".

Definition get_lfs_downloand_info (oid size : string) : M (json * json) :=
  emit (LogInfo "Get download info") ;;;
  n <- lift (int_of_str size) ;;
  let req_data :=
    [("operation", JStr "download");
     ("objects", JArr [JObj [("oid", JStr oid); ("size", JInt n)]]);
     ("transfers", JArr [JStr "lfs-standalone-file"; JStr "basic"]);
     ("ref", JObj [("name", JStr (REF args))])] in
  let header :=
    [("Authorization", BASIC_AUTH cfg);
     ("Content-Type", "application/json")] in
  resp <- request batch_path "POST" (Some header) (Some req_data) 30 ;;
  match resp with
  | None => raise (AttributeError_None "json")
  | Some r =>
      match resp_json r with
      | inr msg => raise (exn Cls.JSONDecodeError msg)
      | inl data =>
          objects <- lift (getitem data "objects") ;;
          obj <- lift (getitem_0 objects) ;;
          actions <- lift (getitem obj "actions") ;;
          download <- lift (getitem actions "download") ;;
          href <- lift (getitem download "href") ;;
          actions' <- lift (getitem obj "actions") ;;
          download' <- lift (getitem actions' "download") ;;
          header' <- lift (getitem download' "header") ;;
          ret (href, header')
      end
  end.

(** The loop of [dl_target_file]: every chunk the response yields is written
    to the file, in the order it arrives. *)
Fixpoint write_chunks (output : string) (chunks : list string) : M unit :=
  match chunks with
  | [] => ret tt
  | chunk :: rest => emit (Write output chunk) ;;; write_chunks output rest
  end.

Definition dl_target_file (url header : json) (output : string) : M unit :=
  emit (LogInfoFmt "Download file: " url) ;;;
  r <- call (requests_get url header true) ;;
  lift (raise_for_status r) ;;;
  let chunk_size := 1024 in
  length <- lift (headers_getitem (headers r) "Content-Length") ;;
  n <- lift (int_of_str length) ;;
  num_bars <- lift (int_div_chunk n) ;;
  match open_wb w output with
  | Some e => raise e
  | None =>
      emit (Open output) ;;;
      emit (Progress num_bars output) ;;;
      write_chunks output (iter_content r) ;;;
      match iter_error r with
      | Some (c, msg) => raise (exn c msg)
      | None => ret tt
      end
  end.

End Pipeline.

(** The body of the last [try] of the module. *)
Definition pipeline (cfg : Config) : M unit :=
  args <- cli ;;
  meta <- get_lfs_meta cfg args ;;
  grant <- get_lfs_downloand_info cfg args (fst meta) (snd meta) ;;
  let output := path_join (OUTPUT args) (Py.last_field (FILE args) "/") in
  dl_target_file (fst grant) (snd grant) output.

(** The last [try] with its handler. *)
Definition main (cfg : Config) : M unit :=
  try_except (pipeline cfg)
    (fun ex =>
       if Cls.is_Exception (exn_class ex)
       then emit (LogError ("Unexpected Error: " ++ exn_str ex))
       else raise ex).

(** The exit status of an exception nothing caught. *)
Definition exit_status_of (e : Exn) : Z :=
  match exn_class e with
  | Cls.SystemExit code => code
  | _ => 1
  end.

(** A run of the script: its trace and the exit status of the process. *)
Definition run : list Event * Z :=
  match load_config with
  | Raise ex =>
      if Cls.is_KeyError (exn_class ex) then
        ([LogError ("Please setup required env variable: " ++ exn_str ex)], 1)
      else
        ([LogError ("Unexpected: " ++ exn_str ex)], 1)
  | Ok cfg =>
      match main cfg [] with
      | (Ok _, t) => (t, 0)
      | (Raise e, t) => (t, exit_status_of e)
      end
  end.

End Script.

(** What the trace leaves in the file [path]: nothing known before it is
    opened, then the chunks written since it was last opened. *)
Fixpoint written (path : string) (before : option string) (t : list Event)
  : option string :=
  match t with
  | [] => before
  | Open p :: t' =>
      written path (if String.eqb p path then Some "" else before) t'
  | Write p chunk :: t' =>
      written path
        (if String.eqb p path
         then option_map (fun s => s ++ chunk) before else before) t'
  | _ :: t' => written path before t'
  end.

Definition http_calls (t : list Event) : list HttpCall :=
  flat_map (fun ev => match ev with Http c => [c] | _ => [] end) t.

(* ================================================================= *)
(** ** A reference world: the end-to-end scenario *)

Module Scenario.

Definition meta_url : string :=
  "http://gitlab.example/api/v4/projects/group%2Fproj/repository/files/data/model.bin/raw?ref=main".
Definition batch_url : string :=
  "http://gitlab.example/group/proj.git/info/lfs/objects/batch".

(** Pointer bodies: the one of the end-to-end scenario, one with two "oid"
    lines, one with a blank after the colon, one with a second "oid" line
    that holds no colon, one without an "oid" line. *)
Definition pointer_text : string :=
  "oid:sha256:deadbeef" ++ LF ++ "size 42" ++ LF.
Definition two_oid_lines : string :=
  "oid sha256:aaaa" ++ LF ++ "oid sha256:bbbb" ++ LF ++ "size 7" ++ LF.
Definition blank_after_colon : string :=
  "oid sha256: cccc" ++ LF ++ "size 7" ++ LF.
Definition oid_line_without_colon : string :=
  "oid sha256:aaaa" ++ LF ++ "oid" ++ LF ++ "size 7" ++ LF.
Definition no_oid_line : string :=
  "version https://git-lfs.github.com/spec/v1" ++ LF ++ "size 42" ++ LF.

Definition pointer : Response :=
  {| status_code := 200; reason := "OK"; url := meta_url;
     text := pointer_text;
     resp_json := inr "Expecting value: line 1 column 1 (char 0)";
     headers := []; iter_content := []; iter_error := None |}.

Definition grant (objects : list json) : Response :=
  {| status_code := 200; reason := "OK"; url := batch_url; text := "";
     resp_json := inl (JObj [("objects", JArr objects)]);
     headers := []; iter_content := []; iter_error := None |}.

Definition object : json :=
  JObj [("oid", JStr "sha256"); ("size", JInt 42);
        ("actions", JObj [("download",
           JObj [("href", JStr "https://storage/x"); ("header", JObj [])])])].

Definition blob (hdrs : list (string * string)) : Response :=
  {| status_code := 200; reason := "OK"; url := "https://storage/x";
     text := ""; resp_json := inr "Expecting value: line 1 column 1 (char 0)";
     headers := hdrs;
     iter_content := ["0123456789abcdefghijklmnopqrstuvwxyzABCDEF"];
     iter_error := None |}.

Definition server (meta batch storage : HttpOutcome) (c : HttpCall)
  : HttpOutcome :=
  match c with
  | requests_request p =>
      if String.eqb (p_method p) "GET" then meta else batch
  | requests_get _ _ _ => storage
  end.

Definition world (meta batch storage : HttpOutcome) : World :=
  {| os_environ := [("GIT_HOST", "gitlab.example"); ("GIT_TOKEN", "t0ken")];
     dotenv := [("GIT_USER", "user"); ("GIT_PWD", "pwd")];
     argv := Parsed "group/proj" "main" "data/model.bin" None;
     cwd := "/home/user";
     resolve := fun d => d;
     http := server meta batch storage;
     open_wb := fun _ => None |}.

Definition not_found : Response :=
  {| status_code := 404; reason := "Not Found"; url := meta_url;
     text := "{}"; resp_json := inl (JObj []);
     headers := []; iter_content := []; iter_error := None |}.

(** The exception [requests] raises when the host refuses the connection. *)
Definition refused : Exn :=
  exn (Cls.RequestException "ConnectionError")
      "HTTPConnectionPool(host='gitlab.example', port=80): Max retries exceeded".

Definition not_found_trace : list Event :=
  [LogInfo "Get LFS meta-data";
   Http (requests_request
           {| p_method := "GET"; p_url := meta_url;
              p_headers := Some [("PRIVATE-TOKEN", "t0ken")];
              p_timeout := 30; p_verify := false; p_json := None |})].

Definition not_found_error : Exn :=
  RuntimeError ("Client Error: 404 Client Error: Not Found for url: "
                  ++ meta_url).

Definition output : string := "/home/user/model.bin".

Definition config : Config :=
  {| GIT_HOST := "gitlab.example"; GIT_TOKEN := "t0ken"; GIT_USER := "user";
     GIT_PWD := "pwd"; BASIC_AUTH := "Basic dXNlcjpwd2Q=" |}.

Definition arguments : Args :=
  {| PROJECT := "group/proj"; REF := "main"; FILE := "data/model.bin";
     OUTPUT := "/home/user" |}.

(** A project and a file path with a blank in them. *)
Definition blank_arguments : Args :=
  {| PROJECT := "my group/proj"; REF := "main"; FILE := "my data/model.bin";
     OUTPUT := "/home/user" |}.

Definition happy : World :=
  world (Responds pointer) (Responds (grant [object]))
        (Responds (blob [("Content-Length", "42")])).

Definition pointer_not_found : World :=
  world (Responds not_found) (Responds (grant [object]))
        (Responds (blob [("Content-Length", "42")])).

Definition connection_refused : World :=
  world (Fails refused) (Fails refused) (Fails refused).

Definition no_objects : World :=
  world (Responds pointer) (Responds (grant []))
        (Responds (blob [("Content-Length", "42")])).

Definition malformed_pointer : World :=
  world (Responds {| status_code := 200; reason := "OK"; url := meta_url;
                     text := no_oid_line; resp_json := inr "Extra data";
                     headers := []; iter_content := [];
                     iter_error := None |})
        (Responds (grant [object]))
        (Responds (blob [("Content-Length", "42")])).


(** The entry the server returns for an object it does not have, and an
    object whose download action carries no header mapping. *)
Definition object_error : json :=
  JObj [("oid", JStr "sha256"); ("size", JInt 42);
        ("error", JObj [("code", JInt 404);
                        ("message", JStr "Object does not exist")])].

Definition object_no_header : json :=
  JObj [("oid", JStr "sha256"); ("size", JInt 42);
        ("actions", JObj [("download",
           JObj [("href", JStr "https://storage/x")])])].

Definition object_missing : World :=
  world (Responds pointer) (Responds (grant [object_error]))
        (Responds (blob [("Content-Length", "42")])).

Definition grant_without_header : World :=
  world (Responds pointer) (Responds (grant [object_no_header]))
        (Responds (blob [("Content-Length", "42")])).

Definition two_objects : World :=
  world (Responds pointer) (Responds (grant [object; object_error]))
        (Responds (blob [("Content-Length", "42")])).

Definition forbidden : Response :=
  {| status_code := 403; reason := "Forbidden"; url := "https://storage/x";
     text := ""; resp_json := inr "Expecting value: line 1 column 1 (char 0)";
     headers := [("Content-Length", "0")];
     iter_content := []; iter_error := None |}.

Definition download_forbidden : World :=
  world (Responds pointer) (Responds (grant [object])) (Responds forbidden).

Definition chunked : World :=
  world (Responds pointer) (Responds (grant [object]))
        (Responds (blob [("Content-Length", "chunked")])).

Definition large : World :=
  world (Responds pointer) (Responds (grant [object]))
        (Responds (blob [("content-length", "5000")])).

Definition help_requested : World :=
  {| os_environ := [("GIT_HOST", "gitlab.example"); ("GIT_TOKEN", "t0ken")];
     dotenv := [("GIT_USER", "user"); ("GIT_PWD", "pwd")];
     argv := Exits 0;
     cwd := "/home/user";
     resolve := fun d => d;
     http := fun _ => Fails refused;
     open_wb := fun _ => None |}.

(** The same worlds with one required variable taken away. *)
Definition no_token : World :=
  {| os_environ := [("GIT_HOST", "gitlab.example")];
     dotenv := [("GIT_USER", "user"); ("GIT_PWD", "pwd")];
     argv := Parsed "group/proj" "main" "data/model.bin" None;
     cwd := "/home/user";
     resolve := fun d => d;
     http := http happy;
     open_wb := fun _ => None |}.

End Scenario.


(* ================================================================= *)
(** ** The pointer parser in the words of the specification *)

Module Spec.

(** The text after the first [sep] of [s]. *)
Fixpoint after_first (s : string) (sep : ascii) : option string :=
  match s with
  | EmptyString => None
  | String c s' => if Ascii.eqb c sep then Some s' else after_first s' sep
  end.

(** The first line starting with [marker]. *)
Definition first_line (marker : string) (lines : list string)
  : option string :=
  find (fun l => Py.startswith l marker) lines.

(** The object id: the text after the first colon of the first line starting
    with "oid", trimmed. *)
Definition pointer_oid (body : string) : option string :=
  match first_line "oid" (Py.StringIO_lines body) with
  | Some l => option_map Py.strip (after_first l ":")
  | None => None
  end.

(** The size: the second whitespace-separated token of the first line
    starting with "size". *)
Definition pointer_size (body : string) : option string :=
  match first_line "size" (Py.StringIO_lines body) with
  | Some l => nth_error (Py.split_ws l) 1
  | None => None
  end.

(** The raw-file URL with every path component percent-encoded: the project
    with the plus-for-space scheme, the file path by [quote] keeping the
    characters [safe]. *)
Definition meta_url (host project file ref safe : string) : string :=
  "http://" ++ host ++ "/api/v4/projects/" ++ Py.quote_plus project
    ++ "/repository/files/" ++ Py.quote file safe ++ "/raw?ref=" ++ ref.

End Spec.

(** The plus-for-space encoding of one character: a blank becomes "+", an
    unreserved character stays, every other character becomes the bytes of
    its UTF-8 encoding, each as a percent sign and two hexadecimal digits. *)
Definition plus_encode (c : ascii) : string :=
  if Ascii.eqb c " " then "+"
  else Py.join (map (Py.quote_byte "") (Py.utf8_char c)).

Fixpoint encode_each (f : ascii -> string) (s : string) : string :=
  match s with
  | EmptyString => ""
  | String c s' => f c ++ encode_each f s'
  end.

(** A character that may stand in a percent-encoded component. *)
Definition encoded_char (c : ascii) : bool :=
  Py.always_safe (Py.ord c) || Ascii.eqb c "+" || Ascii.eqb c "%".

Fixpoint all_chars (p : ascii -> bool) (s : string) : bool :=
  match s with
  | EmptyString => true
  | String c s' => p c && all_chars p s'
  end.

(** The call [request] hands to [requests.request]. *)
Definition wrapper_call (path method : string)
    (header : option (list (string * string)))
    (req_data : option (list (string * json))) (timeout : Z) : HttpCall :=
  requests_request
    {| p_method := method; p_url := path; p_headers := header;
       p_timeout := timeout; p_verify := false;
       p_json := match req_data with
                 | Some (_ :: _) => req_data
                 | _ => None
                 end |}.

(** The call of [get_lfs_meta]. *)
Definition meta_call (cfg : Config) (args : Args) : HttpCall :=
  wrapper_call (meta_path cfg args) "GET"
               (Some [("PRIVATE-TOKEN", GIT_TOKEN cfg)]) None 30.

(** The call of [get_lfs_downloand_info] for the object [oid] of [n]
    bytes. *)
Definition batch_call (cfg : Config) (args : Args) (oid : string) (n : Z)
  : HttpCall :=
  wrapper_call (batch_path cfg args) "POST"
    (Some [("Authorization", BASIC_AUTH cfg);
           ("Content-Type", "application/json")])
    (Some [("operation", JStr "download");
           ("objects", JArr [JObj [("oid", JStr oid); ("size", JInt n)]]);
           ("transfers", JArr [JStr "lfs-standalone-file"; JStr "basic"]);
           ("ref", JObj [("name", JStr (REF args))])]) 30.

(** The arguments [cli] leaves in the module-level names. *)
Definition args_of (w : World) (project ref file : string)
    (output_dir : option string) : Args :=
  {| PROJECT := project; REF := ref; FILE := file;
     OUTPUT := match output_dir with
               | Some d => if String.eqb d "" then cwd w else resolve w d
               | None => cwd w
               end |}.

(** The variables the configuration block reads, in the order it reads
    them. *)
Definition required : list string :=
  ["GIT_HOST"; "GIT_TOKEN"; "GIT_USER"; "GIT_PWD"].

(** [name in os.environ] once [load_dotenv()] has run. *)
Definition defined (w : World) (name : string) : bool :=
  match environ_getitem w name with
  | Ok _ => true
  | Raise _ => false
  end.

(** The call of [dl_target_file]. *)
Definition is_streaming_get (c : HttpCall) : bool :=
  match c with
  | requests_get _ _ stream => stream
  | requests_request _ => false
  end.

(** An event is as the script writes its calls when, if it is a call,
    certificates are verified exactly when it is the streaming GET. *)
Definition as_written (ev : Event) : Prop :=
  match ev with
  | Http c => verifies c = is_streaming_get c
  | _ => True
  end.

(** A computation that only adds such events. *)
Definition preserves {A : Type} (m : M A) : Prop :=
  forall t, Forall as_written t -> Forall as_written (snd (m t)).

Definition supported (method : string) : bool :=
  existsb (String.eqb method) ["GET"; "POST"; "PATCH"; "DELETE"].

(** A line the loop of [get_lfs_meta] gets through without an
    [IndexError]. *)
Definition line_ok (line : string) : bool :=
  if Py.startswith line "oid" then Py.contains ":" line
  else if Py.startswith line "size"
       then (2 <=? List.length (Py.split_ws (Py.strip line)))%nat
       else true.

Definition no_marker (marker : string) (lines : list string) : bool :=
  forallb (fun l => negb (Py.startswith l marker)) lines.

(** No whitespace in [s]. *)
Definition no_space (s : string) : bool :=
  all_chars (fun c => negb (Py.isspace c)) s.

(** No line feed in [s]. *)
Definition one_line (s : string) : bool := negb (Py.contains Py.newline s).

(** The pointer file as git-lfs writes it: the version line, the object id
    after its hash method, the size. *)
Definition standard_pointer (version hash size : string) : string :=
  "version " ++ version ++ LF ++ "oid sha256:" ++ hash ++ LF
    ++ "size " ++ size ++ LF.

(** An answer of the library that the handlers of [request] are written
    for: a response, or an exception that derives from [Exception] and, when
    it is an [HTTPError], carries its response. *)
Definition ordinary (o : HttpOutcome) : bool :=
  match o with
  | Responds _ => true
  | Fails ex =>
      Cls.is_Exception (exn_class ex)
      && (negb (Cls.is_HTTPError (exn_class ex))
          || match exn_response ex with Some _ => true | None => false end)
  end.

Definition is_wrapper_call (method : string) (c : HttpCall) : bool :=
  match c with
  | requests_request p => String.eqb (p_method p) method
  | requests_get _ _ _ => false
  end.

(** The calls of a run in the order the script makes them: the GET of the
    pointer, the POST of the batch, the streaming GET, or a beginning of
    that. *)
Definition sequential (calls : list HttpCall) : bool :=
  match calls with
  | [] => true
  | [a] => is_wrapper_call "GET" a
  | [a; b] => is_wrapper_call "GET" a && is_wrapper_call "POST" b
  | [a; b; c] =>
      is_wrapper_call "GET" a && is_wrapper_call "POST" b
      && is_streaming_get c
  | _ => false
  end.

(** What the two names hold is clean: no colon in the id, a non-empty size
    without whitespace. *)
Definition clean (st : Locals) : Prop :=
  (forall oid, l_oid st = Some oid -> Py.contains ":" oid = false)
  /\ (forall size, l_size st = Some size ->
      no_space size = true /\ size <> "").

(** A computation that only adds events of the kind [P]. *)
Definition keeps {A : Type} (P : Event -> Prop) (m : M A) : Prop :=
  forall t, Forall P t -> Forall P (snd (m t)).

(** An event that is no error line. *)
Definition quiet (ev : Event) : Prop :=
  match ev with
  | LogError _ => False
  | _ => True
  end.

(** An event that touches no file but [path]. *)
Definition touches_only (path : string) (ev : Event) : Prop :=
  match ev with
  | Open p => p = path
  | Write p _ => p = path
  | _ => True
  end.

(** The file a run writes to, if it gets that far. *)
Definition destination (w : World) : string :=
  match argv w with
  | Parsed project ref file output_dir =>
      path_join (OUTPUT (args_of w project ref file output_dir))
                (Py.last_field file "/")
  | Exits _ => ""
  end.

(** A byte. *)
Definition is_byte (b : Z) : bool := (0 <=? b) && (b <? 256).

(** The integers from 0 up to [n], [n] left out. *)
Definition below (n : nat) : list Z := map Z.of_nat (seq 0 n).

(** The value of a base64 digit. *)
Definition b64_index (c : ascii) : option Z :=
  let n := Py.ord c in
  if (65 <=? n) && (n <=? 90) then Some (n - 65)
  else if (97 <=? n) && (n <=? 122) then Some (n - 71)
  else if (48 <=? n) && (n <=? 57) then Some (n + 4)
  else if n =? 43 then Some 62
  else if n =? 47 then Some 63
  else None.

(** Base64 decoding as a server applies it to Basic credentials (RFC 4648):
    groups of four digits, the last group padded with "=". *)
Fixpoint b64decode (s : string) : option (list Z) :=
  match s with
  | EmptyString => Some []
  | String c1 (String c2 (String c3 (String c4 rest))) =>
      match b64_index c1 with
      | None => None
      | Some d1 =>
      match b64_index c2 with
      | None => None
      | Some d2 =>
          let a := Z.lor (Z.shiftl d1 2) (Z.shiftr d2 4) in
          if Ascii.eqb c3 "=" then
            if Ascii.eqb c4 "=" && String.eqb rest "" then Some [a] else None
          else
            match b64_index c3 with
            | None => None
            | Some d3 =>
                let b := Z.lor (Z.shiftl (Z.land d2 15) 4) (Z.shiftr d3 2) in
                if Ascii.eqb c4 "=" then
                  if String.eqb rest "" then Some [a; b] else None
                else
                  match b64_index c4 with
                  | None => None
                  | Some d4 =>
                      let c := Z.lor (Z.shiftl (Z.land d3 3) 6) d4 in
                      match b64decode rest with
                      | Some l => Some (a :: b :: c :: l)
                      | None => None
                      end
                  end
            end
      end end
  | _ => None
  end.

Fixpoint list_Z_eqb (l1 l2 : list Z) : bool :=
  match l1, l2 with
  | [], [] => true
  | x :: l1', y :: l2' => (x =? y) && list_Z_eqb l1' l2'
  | _, _ => false
  end.

(** [decoded o l]: the decoding [o] succeeded with the bytes [l]. *)
Definition decoded (o : option (list Z)) (l : list Z) : bool :=
  match o with
  | Some l' => list_Z_eqb l' l
  | None => false
  end.

(** The module-level name a required variable is stored under. *)
Definition config_value (cfg : Config) (name : string) : option string :=
  if String.eqb name "GIT_HOST" then Some (GIT_HOST cfg)
  else if String.eqb name "GIT_TOKEN" then Some (GIT_TOKEN cfg)
  else if String.eqb name "GIT_USER" then Some (GIT_USER cfg)
  else if String.eqb name "GIT_PWD" then Some (GIT_PWD cfg)
  else None.

(** A variable that the process environment or the environment file
    defines. *)
Definition available (w : World) (name : string) : bool :=
  match dict_get (os_environ w) name, dict_get (dotenv w) name with
  | None, None => false
  | _, _ => true
  end.

(** [key in obj] for a decoded object. *)
Definition has_key (obj : json) (key : string) : bool :=
  match obj with
  | JObj members =>
      match dict_get members key with Some _ => true | None => false end
  | _ => false
  end.

(* ================================================================= *)
(** * Properties *)

(** ** The pointer parser *)

Section Parser.

Lemma isspace_not_colon c : Py.isspace c = true -> Ascii.eqb ":" c = false.
Proof.
  intros H. destruct (Ascii.eqb_spec ":" c) as [<- | _]; [| reflexivity].
  vm_compute in H. discriminate.
Qed.

Lemma contains_lstrip s :
  Py.contains ":" s = true -> Py.contains ":" (Py.lstrip s) = true.
Proof.
  induction s as [| c s IH]; cbn [Py.contains Py.lstrip]; [easy |].
  destruct (Py.isspace c) eqn:Hc; [| easy].
  rewrite (isspace_not_colon _ Hc). exact IH.
Qed.

Lemma contains_rstrip s :
  Py.contains ":" s = true -> Py.contains ":" (Py.rstrip s) = true.
Proof.
  induction s as [| c s IH]; cbn [Py.contains Py.rstrip]; [easy |].
  intros H. apply orb_true_iff in H. destruct H as [H | H].
  - destruct (Py.rstrip s); cbn [Py.contains].
    + destruct (Py.isspace c) eqn:Hc.
      * rewrite (isspace_not_colon _ Hc) in H. discriminate.
      * cbn [Py.contains]. now rewrite H.
    + now rewrite H.
  - specialize (IH H). destruct (Py.rstrip s) as [| d r]; [discriminate |].
    cbn [Py.contains] in *. rewrite IH. apply orb_true_r.
Qed.

Lemma split_cons s sep : exists h t, Py.split s sep = h :: t.
Proof.
  induction s as [| c s (h & t & IH)]; cbn [Py.split];
    [now eexists; eexists |].
  destruct (Ascii.eqb c sep); [now eexists; eexists |].
  rewrite IH. now eexists; eexists.
Qed.

Lemma split_contains s sep :
  Py.contains sep s = true ->
  exists a b rest, Py.split s sep = a :: b :: rest.
Proof.
  induction s as [| c s IH]; cbn [Py.contains Py.split]; [easy |].
  intros H. rewrite Ascii.eqb_sym.
  destruct (Ascii.eqb sep c); cbn [orb] in H.
  - destruct (split_cons s sep) as (h & t & ->). now do 3 eexists.
  - destruct (IH H) as (a & b & rest & ->). now do 3 eexists.
Qed.

(** A line that holds a colon has a second colon-separated field, also once
    it is trimmed. *)
Lemma colon_item_1 line :
  Py.contains ":" line = true ->
  exists v, item_1 (Py.split (Py.strip line) ":") = Ok v.
Proof.
  intros H. apply contains_lstrip, contains_rstrip in H.
  destruct (split_contains _ _ H) as (a & b & rest & E).
  unfold Py.strip, item_1. rewrite E. simpl. now exists b.
Qed.

Lemma tokens_item_1 (l : list string) :
  (2 <=? List.length l)%nat = true -> exists v, item_1 l = Ok v.
Proof.
  destruct l as [| a [| b l]]; simpl; try discriminate.
  intros _. now exists b.
Qed.

Lemma startswith_oid_not_size line :
  Py.startswith line "oid" = true -> Py.startswith line "size" = false.
Proof.
  unfold Py.startswith.
  destruct line as [| c line]; cbn [String.prefix]; [easy |].
  destruct (Ascii.ascii_dec "o" c) as [<- | ne]; [| discriminate]. intros _.
  destruct (Ascii.ascii_dec "s" "o") as [e | _];
    [discriminate e | reflexivity].
Qed.

(** Every exception of the loop is an [IndexError]. *)
Lemma meta_line_raises st line e :
  meta_line st line = Raise e ->
  e = IndexError "list index out of range".
Proof.
  unfold meta_line, item_1.
  destruct (Py.startswith line "oid").
  - destruct (nth_error _ 1); [discriminate | now intros [= <-]].
  - destruct (Py.startswith line "size"); [| discriminate].
    destruct (nth_error _ 1); [discriminate | now intros [= <-]].
Qed.

Lemma meta_loop_raises lines : forall st e,
  meta_loop st lines = Raise e ->
  e = IndexError "list index out of range".
Proof.
  induction lines as [| l lines IH]; simpl; intros st e; [discriminate |].
  destruct (meta_line st l) as [st' |e'] eqn:E.
  - apply IH.
  - intros [= <-]. eapply meta_line_raises, E.
Qed.

Lemma meta_line_ok st line :
  line_ok line = true -> exists st', meta_line st line = Ok st'.
Proof.
  unfold line_ok, meta_line.
  destruct (Py.startswith line "oid").
  - intros H. destruct (colon_item_1 _ H) as (v & ->). now eexists.
  - destruct (Py.startswith line "size"); [| now eexists].
    intros H. destruct (tokens_item_1 _ H) as (v & ->). now eexists.
Qed.

Lemma meta_loop_ok lines : forall st,
  forallb line_ok lines = true -> exists st', meta_loop st lines = Ok st'.
Proof.
  induction lines as [| l lines IH]; simpl; intros st H; [now eexists |].
  apply andb_true_iff in H. destruct H as [Hl Hr].
  destruct (meta_line_ok st l Hl) as (st' & ->). now apply IH.
Qed.

Lemma meta_loop_app l1 : forall l2 st,
  meta_loop st (l1 ++ l2)%list =
  match meta_loop st l1 with
  | Ok st' => meta_loop st' l2
  | Raise e => Raise e
  end.
Proof.
  induction l1 as [| l l1 IH]; simpl; intros l2 st; [reflexivity |].
  destruct (meta_line st l); [apply IH | reflexivity].
Qed.

(** Lines without the marker leave the name as it was. *)
Lemma meta_loop_keeps_oid lines : forall st st',
  no_marker "oid" lines = true ->
  meta_loop st lines = Ok st' -> l_oid st' = l_oid st.
Proof.
  induction lines as [| l lines IH]; simpl; intros st st' H E.
  - now injection E as <-.
  - apply andb_true_iff in H. destruct H as [Hl Hr].
    apply negb_true_iff in Hl.
    destruct (meta_line st l) as [s1 |] eqn:E1; [| discriminate].
    rewrite (IH _ _ Hr E). revert E1. unfold meta_line. rewrite Hl.
    destruct (Py.startswith l "size").
    + destruct (item_1 _); [| discriminate]. now intros [= <-].
    + now intros [= <-].
Qed.

Lemma meta_loop_keeps_size lines : forall st st',
  no_marker "size" lines = true ->
  meta_loop st lines = Ok st' -> l_size st' = l_size st.
Proof.
  induction lines as [| l lines IH]; simpl; intros st st' H E.
  - now injection E as <-.
  - apply andb_true_iff in H. destruct H as [Hl Hr].
    apply negb_true_iff in Hl.
    destruct (meta_line st l) as [s1 |] eqn:E1; [| discriminate].
    rewrite (IH _ _ Hr E). revert E1. unfold meta_line. rewrite Hl.
    destruct (Py.startswith l "oid").
    + destruct (item_1 _); [| discriminate]. now intros [= <-].
    + now intros [= <-].
Qed.

Lemma meta_line_oid st line st' :
  Py.startswith line "oid" = true ->
  meta_line st line = Ok st' ->
  exists v, nth_error (Py.split (Py.strip line) ":") 1 = Some v
            /\ l_oid st' = Some v.
Proof.
  unfold meta_line, item_1. intros ->.
  destruct (nth_error _ 1) as [v |]; [| discriminate].
  intros [= <-]. now exists v.
Qed.

Lemma meta_line_size st line st' :
  Py.startswith line "size" = true ->
  meta_line st line = Ok st' ->
  exists v, nth_error (Py.split_ws (Py.strip line)) 1 = Some v
            /\ l_size st' = Some v.
Proof.
  unfold meta_line, item_1. intros H.
  destruct (Py.startswith line "oid") eqn:Ho.
  - rewrite (startswith_oid_not_size _ Ho) in H. discriminate.
  - rewrite H. destruct (nth_error _ 1) as [v |]; [| discriminate].
    intros [= <-]. now exists v.
Qed.

(** After the loop, a name holds what the last line with its marker gave
    it. *)
Lemma meta_loop_last_oid pre line post st st' :
  Py.startswith line "oid" = true ->
  no_marker "oid" post = true ->
  meta_loop st (pre ++ line :: post)%list = Ok st' ->
  exists v, nth_error (Py.split (Py.strip line) ":") 1 = Some v
            /\ l_oid st' = Some v.
Proof.
  intros Hl Hp. rewrite meta_loop_app.
  destruct (meta_loop st pre) as [s1 |]; [| discriminate]. simpl.
  destruct (meta_line s1 line) as [s2 |] eqn:E2; [| discriminate].
  intros E. destruct (meta_line_oid _ _ _ Hl E2) as (v & Hv & Hs).
  exists v. split; [exact Hv |].
  now rewrite (meta_loop_keeps_oid _ _ _ Hp E).
Qed.

Lemma meta_loop_last_size pre line post st st' :
  Py.startswith line "size" = true ->
  no_marker "size" post = true ->
  meta_loop st (pre ++ line :: post)%list = Ok st' ->
  exists v, nth_error (Py.split_ws (Py.strip line)) 1 = Some v
            /\ l_size st' = Some v.
Proof.
  intros Hl Hp. rewrite meta_loop_app.
  destruct (meta_loop st pre) as [s1 |]; [| discriminate]. simpl.
  destruct (meta_line s1 line) as [s2 |] eqn:E2; [| discriminate].
  intros E. destruct (meta_line_size _ _ _ Hl E2) as (v & Hv & Hs).
  exists v. split; [exact Hv |].
  now rewrite (meta_loop_keeps_size _ _ _ Hp E).
Qed.

(** C1, as the code has it: when every line starting with "oid" holds a colon
    and every line starting with "size" has two tokens, the parser returns
    the second colon-separated field of the trimmed LAST line starting with
    "oid" and the second whitespace-separated token of the LAST line starting
    with "size". *)
Theorem parse_pointer_last_marker_lines
    body pre_o line_o post_o pre_s line_s post_s :
  forallb line_ok (Py.StringIO_lines body) = true ->
  Py.StringIO_lines body = (pre_o ++ line_o :: post_o)%list ->
  Py.startswith line_o "oid" = true ->
  no_marker "oid" post_o = true ->
  Py.StringIO_lines body = (pre_s ++ line_s :: post_s)%list ->
  Py.startswith line_s "size" = true ->
  no_marker "size" post_s = true ->
  exists oid size,
    nth_error (Py.split (Py.strip line_o) ":") 1 = Some oid
    /\ nth_error (Py.split_ws (Py.strip line_s)) 1 = Some size
    /\ parse_pointer body = Ok (oid, size).
Proof.
  intros Hok Eo Ho Hpo Es Hs Hps. unfold parse_pointer.
  destruct (meta_loop_ok _ {| l_oid := None; l_size := None |} Hok)
    as (st & E).
  rewrite E.
  assert (Eo' := E). rewrite Eo in Eo'.
  destruct (meta_loop_last_oid _ _ _ _ _ Ho Hpo Eo') as (oid & Hoid & ->).
  assert (Es' := E). rewrite Es in Es'.
  destruct (meta_loop_last_size _ _ _ _ _ Hs Hps Es') as (size & Hsize & ->).
  now exists oid, size.
Qed.

Lemma parse_pointer_last_marker_lines_witness :
  exists oid size,
    nth_error (Py.split (Py.strip ("oid sha256:bbbb" ++ LF)) ":") 1 = Some oid
    /\ nth_error (Py.split_ws (Py.strip ("size 7" ++ LF))) 1 = Some size
    /\ parse_pointer Scenario.two_oid_lines = Ok (oid, size).
Proof.
  apply (parse_pointer_last_marker_lines Scenario.two_oid_lines
           ["oid sha256:aaaa" ++ LF] ("oid sha256:bbbb" ++ LF)
           ["size 7" ++ LF]
           ["oid sha256:aaaa" ++ LF; "oid sha256:bbbb" ++ LF]
           ("size 7" ++ LF) []); reflexivity.
Defined.

(** C1, as stated, fails: on the pointer of the end-to-end scenario the code
    stops the object id at the second colon; with two "oid" lines it returns
    the last, not the first; a blank after the colon stays in the id; and a
    later "oid" line without a colon ends the parse with an [IndexError]. *)
Lemma parse_pointer_differs_from_spec :
  (Spec.pointer_oid Scenario.pointer_text = Some "sha256:deadbeef"
   /\ Spec.pointer_size Scenario.pointer_text = Some "42"
   /\ parse_pointer Scenario.pointer_text = Ok ("sha256", "42")
   /\ parse_pointer Scenario.pointer_text <> Ok ("sha256:deadbeef", "42"))
  /\ (Spec.pointer_oid Scenario.two_oid_lines = Some "aaaa"
      /\ Spec.pointer_size Scenario.two_oid_lines = Some "7"
      /\ parse_pointer Scenario.two_oid_lines = Ok ("bbbb", "7"))
  /\ (Spec.pointer_oid Scenario.blank_after_colon = Some "cccc"
      /\ Spec.pointer_size Scenario.blank_after_colon = Some "7"
      /\ parse_pointer Scenario.blank_after_colon = Ok (" cccc", "7"))
  /\ (Spec.pointer_oid Scenario.oid_line_without_colon = Some "aaaa"
      /\ Spec.pointer_size Scenario.oid_line_without_colon = Some "7"
      /\ parse_pointer Scenario.oid_line_without_colon
         = Raise (IndexError "list index out of range")).
Proof.
  repeat split; try reflexivity. vm_compute. discriminate.
Qed.

(** C2 on the code: a body without a line starting with "oid", or without a
    line starting with "size", makes the parser fail with the interpreter's
    [UnboundLocalError] (or with the [IndexError] of an earlier line), never
    with an error of the script's own. *)
Theorem parse_pointer_missing_marker body :
  no_marker "oid" (Py.StringIO_lines body)
  || no_marker "size" (Py.StringIO_lines body) = true ->
  parse_pointer body = Raise (UnboundLocalError "oid")
  \/ parse_pointer body = Raise (UnboundLocalError "size")
  \/ parse_pointer body = Raise (IndexError "list index out of range").
Proof.
  intros H. unfold parse_pointer.
  destruct (meta_loop _ _) as [st | e] eqn:E.
  - apply orb_true_iff in H. destruct H as [H | H].
    + rewrite (meta_loop_keeps_oid _ _ _ H E). now left.
    + rewrite (meta_loop_keeps_size _ _ _ H E).
      destruct (l_oid st); [right | ]; now left.
  - right; right. f_equal. eapply meta_loop_raises, E.
Qed.

Lemma parse_pointer_missing_marker_witness :
  parse_pointer Scenario.no_oid_line = Raise (UnboundLocalError "oid")
  \/ parse_pointer Scenario.no_oid_line = Raise (UnboundLocalError "size")
  \/ parse_pointer Scenario.no_oid_line
     = Raise (IndexError "list index out of range").
Proof.
  apply (parse_pointer_missing_marker Scenario.no_oid_line). reflexivity.
Defined.

Example parse_pointer_no_oid_line :
  parse_pointer Scenario.no_oid_line = Raise (UnboundLocalError "oid").
Proof. reflexivity. Qed.

End Parser.

(* ================================================================= *)
(** ** Percent-encoding *)

Section Encoding.

Lemma append_assoc (a b c : string) : (a ++ b) ++ c = a ++ (b ++ c).
Proof.
  induction a as [| x a IH]; cbn [append]; [reflexivity | now rewrite IH].
Qed.

Lemma append_nil_r (a : string) : a ++ "" = a.
Proof.
  induction a as [| x a IH]; cbn [append]; [reflexivity | now rewrite IH].
Qed.

Lemma replace_char_app a b old new :
  Py.replace_char (a ++ b) old new
  = Py.replace_char a old new ++ Py.replace_char b old new.
Proof.
  induction a as [| c a IH]; cbn [Py.replace_char append]; [reflexivity |].
  now rewrite IH.
Qed.

Lemma join_app (l1 l2 : list string) :
  Py.join (l1 ++ l2)%list = Py.join l1 ++ Py.join l2.
Proof.
  induction l1 as [| x l1 IH]; cbn [Py.join app append]; [reflexivity |].
  rewrite IH. symmetry. apply append_assoc.
Qed.

Lemma quote_cons c s safe :
  Py.quote (String c s) safe
  = Py.join (map (Py.quote_byte safe) (Py.utf8_char c)) ++ Py.quote s safe.
Proof.
  unfold Py.quote. cbn [Py.utf8]. now rewrite map_app, join_app.
Qed.

(** With the blank kept and then replaced, or not kept at all: one character
    at a time, both branches of [quote_plus] give [plus_encode]. *)
Lemma plus_encode_kept c :
  Py.replace_char (Py.join (map (Py.quote_byte " ") (Py.utf8_char c))) " " "+"
  = plus_encode c.
Proof.
  destruct c as [[] [] [] [] [] [] [] []]; vm_compute; reflexivity.
Qed.

Lemma plus_encode_unkept c :
  Ascii.eqb " " c = false ->
  Py.join (map (Py.quote_byte "") (Py.utf8_char c)) = plus_encode c.
Proof.
  unfold plus_encode. rewrite Ascii.eqb_sym. now intros ->.
Qed.

Lemma plus_encode_chars c : all_chars encoded_char (plus_encode c) = true.
Proof.
  destruct c as [[] [] [] [] [] [] [] []]; vm_compute; reflexivity.
Qed.

Lemma all_chars_app p a b :
  all_chars p (a ++ b) = all_chars p a && all_chars p b.
Proof.
  induction a as [| c a IH]; cbn [all_chars append]; [reflexivity |].
  now rewrite IH, andb_assoc.
Qed.

(** [quote_plus], one character at a time. *)
Lemma quote_plus_each s : Py.quote_plus s = encode_each plus_encode s.
Proof.
  unfold Py.quote_plus. destruct (Py.contains " " s) eqn:Hs.
  - clear Hs. induction s as [| c s IH]; [reflexivity |].
    rewrite quote_cons, replace_char_app, plus_encode_kept, IH.
    reflexivity.
  - induction s as [| c s IH]; [reflexivity |].
    cbn [Py.contains] in Hs. apply orb_false_iff in Hs.
    destruct Hs as [Hc Hs].
    rewrite quote_cons, (plus_encode_unkept _ Hc), (IH Hs). reflexivity.
Qed.

(** What [quote_plus] returns holds unreserved characters, plus signs and
    percent signs only. *)
Lemma quote_plus_encoded s : all_chars encoded_char (Py.quote_plus s) = true.
Proof.
  rewrite quote_plus_each.
  induction s as [| c s IH]; [reflexivity |].
  cbn [encode_each]. now rewrite all_chars_app, plus_encode_chars, IH.
Qed.

End Encoding.

(* ================================================================= *)
(** ** The request wrapper *)

Section Wrapper.

Variable w : World.

Lemma in_range lo hi s : lo <= s < hi -> (lo <=? s) && (s <? hi) = true.
Proof.
  intros [H1 H2]. apply andb_true_iff. split.
  - now apply Z.leb_le.
  - now apply Z.ltb_lt.
Qed.

Lemma out_of_range lo hi s :
  s < lo \/ hi <= s -> (lo <=? s) && (s <? hi) = false.
Proof.
  intros H. apply andb_false_iff. destruct H as [H | H].
  - left. now apply Z.leb_gt.
  - right. now apply Z.ltb_ge.
Qed.

Ltac step_request :=
  unfold request, supported, wrapper_call, call, bind, try_except, emit,
    lift, ret, raise in *.

Lemma request_unsupported path method header req_data timeout t :
  supported method = false ->
  request w path method header req_data timeout t
  = (Raise (RuntimeError ("Unsupport method: " ++ method)), t).
Proof. step_request. now intros ->. Qed.

(** Whatever comes of it, a supported method costs exactly one call. *)
Lemma request_trace path method header req_data timeout t :
  supported method = true ->
  snd (request w path method header req_data timeout t)
  = (t ++ [Http (wrapper_call path method header req_data timeout)])%list.
Proof.
  step_request. intros ->. cbn [negb].
  destruct (http w _) as [r | ex]; cbn [fst snd].
  - destruct (raise_for_status r) as [[] | ex] eqn:E; [reflexivity |].
    unfold raise_for_status in E.
    destruct ((400 <=? status_code r) && (status_code r <? 500)) eqn:E4.
    + injection E as <-. cbn. rewrite E4. reflexivity.
    + destruct ((500 <=? status_code r) && (status_code r <? 600)) eqn:E5;
        [| discriminate].
      injection E as <-. cbn. rewrite E4, E5. reflexivity.
  - destruct (Cls.is_connection_failure (exn_class ex)); [reflexivity |].
    destruct (Cls.is_HTTPError (exn_class ex)).
    + destruct (exn_response ex) as [r |]; [| reflexivity].
      destruct ((400 <=? status_code r) && (status_code r <? 500));
        [reflexivity |].
      now destruct ((500 <=? status_code r) && (status_code r <? 600)).
    + now destruct (Cls.is_Exception (exn_class ex)).
Qed.

Lemma request_ok path method header req_data timeout t r :
  supported method = true ->
  http w (wrapper_call path method header req_data timeout) = Responds r ->
  raise_for_status r = Ok tt ->
  fst (request w path method header req_data timeout t) = Ok (Some r).
Proof. step_request. intros -> -> ->. reflexivity. Qed.

(** A 4xx status: "Client Error: " and the text of the [HTTPError], which
    holds the status and the reason. *)
Lemma request_client_error path method header req_data timeout t r :
  supported method = true ->
  http w (wrapper_call path method header req_data timeout) = Responds r ->
  400 <= status_code r < 500 ->
  fst (request w path method header req_data timeout t)
  = Raise (RuntimeError ("Client Error: " ++ Py.str_of_int (status_code r)
                           ++ " Client Error: " ++ reason r
                           ++ " for url: " ++ url r)).
Proof.
  step_request. intros -> -> H. unfold raise_for_status.
  rewrite (in_range _ _ _ H). cbn. rewrite (in_range _ _ _ H). reflexivity.
Qed.

(** A 5xx status: "Server Error: " and the text of the [HTTPError]. *)
Lemma request_server_error path method header req_data timeout t r :
  supported method = true ->
  http w (wrapper_call path method header req_data timeout) = Responds r ->
  500 <= status_code r < 600 ->
  fst (request w path method header req_data timeout t)
  = Raise (RuntimeError ("Server Error: " ++ Py.str_of_int (status_code r)
                           ++ " Server Error: " ++ reason r
                           ++ " for url: " ++ url r)).
Proof.
  step_request. intros -> -> H. unfold raise_for_status.
  assert (H4 : (400 <=? status_code r) && (status_code r <? 500) = false)
    by (apply out_of_range; lia).
  rewrite H4, (in_range _ _ _ H). cbn.
  rewrite H4, (in_range _ _ _ H). reflexivity.
Qed.

(** An exception of one of the two classes the first handler names:
    "Connection failed: " and the name of its class. *)
Lemma request_connection_failed path method header req_data timeout t ex :
  supported method = true ->
  http w (wrapper_call path method header req_data timeout) = Fails ex ->
  Cls.is_connection_failure (exn_class ex) = true ->
  fst (request w path method header req_data timeout t)
  = Raise (RuntimeError ("Connection failed: " ++ Cls.name (exn_class ex))).
Proof. step_request. intros -> -> ->. reflexivity. Qed.

(** Any other exception: a [RuntimeError] with the same text. *)
Lemma request_other_exception path method header req_data timeout t ex :
  supported method = true ->
  http w (wrapper_call path method header req_data timeout) = Fails ex ->
  Cls.is_connection_failure (exn_class ex) = false ->
  Cls.is_HTTPError (exn_class ex) = false ->
  Cls.is_Exception (exn_class ex) = true ->
  fst (request w path method header req_data timeout t)
  = Raise (RuntimeError (exn_str ex)).
Proof. step_request. intros -> -> -> -> ->. reflexivity. Qed.

(** C9 on the code: when [requests] reports a connection-level failure, by
    the [ConnectionError] of [requests.exceptions], the wrapper does not
    answer "Connection failed" with the name of the class: the exception
    falls to the last handler and is wrapped with its own text. *)
Theorem request_requests_connection_error
    path method header req_data timeout t ex :
  supported method = true ->
  http w (wrapper_call path method header req_data timeout) = Fails ex ->
  exn_class ex = Cls.RequestException "ConnectionError" ->
  fst (request w path method header req_data timeout t)
  = Raise (RuntimeError (exn_str ex)).
Proof.
  intros Hm Hw Hc.
  apply request_other_exception; try assumption; now rewrite Hc.
Qed.

End Wrapper.

Lemma request_requests_connection_error_witness :
  fst (request Scenario.connection_refused Scenario.meta_url "GET"
               None None 30 [])
  = Raise (RuntimeError (exn_str Scenario.refused)).
Proof.
  apply (request_requests_connection_error Scenario.connection_refused
           Scenario.meta_url "GET" None None 30 [] Scenario.refused);
    reflexivity.
Defined.

Example refused_is_not_connection_failed :
  fst (request Scenario.connection_refused Scenario.meta_url "GET"
               None None 30 [])
  <> Raise (RuntimeError "Connection failed: ConnectionError").
Proof. vm_compute. discriminate. Qed.

(* ================================================================= *)
(** ** The pointer fetch *)

Section Fetch.

Variable w : World.
Variable cfg : Config.
Variable args : Args.

(** [get_lfs_meta] logs one line and issues one call, whatever follows. *)
Lemma get_lfs_meta_trace t :
  snd (get_lfs_meta w cfg args t)
  = (t ++ [LogInfo "Get LFS meta-data"; Http (meta_call cfg args)])%list.
Proof.
  unfold get_lfs_meta, meta_call.
  unfold bind at 1. unfold emit at 1. unfold bind at 1.
  pose proof (request_trace w (meta_path cfg args) "GET"
                (Some [("PRIVATE-TOKEN", GIT_TOKEN cfg)]) None 30
                (t ++ [LogInfo "Get LFS meta-data"]) eq_refl) as H.
  destruct (request w _ _ _ _ _ _) as [[[r |] | e] t'];
    cbn [fst snd] in *; unfold raise, lift; cbn [fst snd];
    rewrite H, <- app_assoc; reflexivity.
Qed.

(** C3, as the code has it: the call of the pointer fetch goes to the
    raw-file URL in which the project path is encoded one character at a time
    by the plus-for-space scheme, and the file path and the ref stand as they
    were given. *)
Theorem get_lfs_meta_url t :
  snd (get_lfs_meta w cfg args t)
  = (t ++ [LogInfo "Get LFS meta-data";
           Http (wrapper_call
                   ("http://" ++ GIT_HOST cfg ++ "/api/v4/projects/"
                      ++ encode_each plus_encode (PROJECT args)
                      ++ "/repository/files/" ++ FILE args
                      ++ "/raw?ref=" ++ REF args)
                   "GET" (Some [("PRIVATE-TOKEN", GIT_TOKEN cfg)]) None 30)]
    )%list
  /\ all_chars encoded_char (encode_each plus_encode (PROJECT args)) = true.
Proof.
  split.
  - rewrite get_lfs_meta_trace. unfold meta_call, meta_path.
    now rewrite quote_plus_each.
  - rewrite <- quote_plus_each. apply quote_plus_encoded.
Qed.

(** A 404 from the raw-file endpoint: the fetch raises the client error with
    the status in its text. *)
Lemma get_lfs_meta_not_found t r :
  http w (meta_call cfg args) = Responds r ->
  status_code r = 404 ->
  fst (get_lfs_meta w cfg args t)
  = Raise (RuntimeError ("Client Error: 404 Client Error: " ++ reason r
                           ++ " for url: " ++ url r)).
Proof.
  intros Hw Hs. unfold get_lfs_meta.
  unfold bind at 1. unfold emit at 1. unfold bind at 1.
  pose proof (request_client_error w (meta_path cfg args) "GET"
                (Some [("PRIVATE-TOKEN", GIT_TOKEN cfg)]) None 30
                (t ++ [LogInfo "Get LFS meta-data"]) r eq_refl Hw) as H.
  rewrite Hs in H. specialize (H ltac:(lia)).
  destruct (request w _ _ _ _ _ _) as [[x | e] t']; cbn [fst] in *;
    [discriminate |].
  injection H as ->. reflexivity.
Qed.

End Fetch.

(** C3, as stated, fails: with a blank in the file path the URL holds that
    blank as it is, where a percent-encoded path has none, whichever
    characters the encoding keeps. *)
Lemma meta_path_file_not_encoded :
  meta_path Scenario.config Scenario.blank_arguments
  = "http://gitlab.example/api/v4/projects/my+group%2Fproj/repository/files/my data/model.bin/raw?ref=main"
  /\ Py.contains " " (meta_path Scenario.config Scenario.blank_arguments)
     = true
  /\ meta_path Scenario.config Scenario.blank_arguments
     <> Spec.meta_url "gitlab.example" "my group/proj" "my data/model.bin"
                      "main" ""
  /\ meta_path Scenario.config Scenario.blank_arguments
     <> Spec.meta_url "gitlab.example" "my group/proj" "my data/model.bin"
                      "main" "/".
Proof.
  repeat split; try reflexivity; vm_compute; discriminate.
Qed.

(* ================================================================= *)
(** ** The top level *)

Section TopLevel.

Variable w : World.
Variable cfg : Config.
Hypothesis configured : load_config w = Ok cfg.

(** C4 on the code: when the pipeline raises, the handler logs the error and
    the script runs to its end: the exit status is 0. *)
Theorem failed_run_exit_status e t :
  pipeline w cfg [] = (Raise e, t) ->
  Cls.is_Exception (exn_class e) = true ->
  run w = ((t ++ [LogError ("Unexpected Error: " ++ exn_str e)])%list, 0).
Proof.
  intros Hp He. unfold run, main, try_except.
  rewrite configured, Hp, He. reflexivity.
Qed.

(** C6: a 404 from the raw-file endpoint is reported as a client error with
    the status in its text, and the run ends there: the trace holds the one
    GET and no other call. *)
Theorem not_found_halts project ref file output_dir r :
  argv w = Parsed project ref file output_dir ->
  http w (meta_call cfg (args_of w project ref file output_dir))
  = Responds r ->
  status_code r = 404 ->
  fst (run w)
  = [LogInfo "Get LFS meta-data";
     Http (meta_call cfg (args_of w project ref file output_dir));
     LogError ("Unexpected Error: Client Error: 404 Client Error: "
                 ++ reason r ++ " for url: " ++ url r)]
  /\ http_calls (fst (run w))
     = [meta_call cfg (args_of w project ref file output_dir)].
Proof.
  intros Ha Hw Hs.
  assert (E : fst (run w)
              = [LogInfo "Get LFS meta-data";
                 Http (meta_call cfg (args_of w project ref file output_dir));
                 LogError ("Unexpected Error: Client Error: 404 Client Error: "
                             ++ reason r ++ " for url: " ++ url r)]).
  { unfold run, main, try_except, pipeline. rewrite configured.
    unfold bind at 1. unfold cli. rewrite Ha. unfold ret at 1.
    fold (args_of w project ref file output_dir).
    unfold bind at 1.
    pose proof (get_lfs_meta_trace w cfg
                  (args_of w project ref file output_dir) []) as Ht.
    pose proof (get_lfs_meta_not_found w cfg _ [] r Hw Hs) as Hr.
    destruct (get_lfs_meta w cfg _ []) as [res t']. cbn [fst snd] in *.
    subst res t'. cbn. reflexivity. }
  split; [exact E |]. rewrite E. reflexivity.
Qed.

End TopLevel.

Example malformed_pointer_run :
  run Scenario.malformed_pointer
  = ([LogInfo "Get LFS meta-data";
      Http (meta_call Scenario.config Scenario.arguments);
      LogError
        "Unexpected Error: local variable 'oid' referenced before assignment"],
     0).
Proof. reflexivity. Qed.

Lemma failed_run_exit_status_witness :
  run Scenario.pointer_not_found
  = ((Scenario.not_found_trace
        ++ [LogError ("Unexpected Error: "
                        ++ exn_str Scenario.not_found_error)])%list, 0).
Proof.
  apply (failed_run_exit_status Scenario.pointer_not_found Scenario.config
           eq_refl Scenario.not_found_error Scenario.not_found_trace);
    reflexivity.
Defined.

Lemma not_found_halts_witness :
  fst (run Scenario.pointer_not_found)
  = [LogInfo "Get LFS meta-data";
     Http (meta_call Scenario.config
             (args_of Scenario.pointer_not_found "group/proj" "main"
                      "data/model.bin" None));
     LogError ("Unexpected Error: Client Error: 404 Client Error: "
                 ++ reason Scenario.not_found ++ " for url: "
                 ++ url Scenario.not_found)]
  /\ http_calls (fst (run Scenario.pointer_not_found))
     = [meta_call Scenario.config
          (args_of Scenario.pointer_not_found "group/proj" "main"
                   "data/model.bin" None)].
Proof.
  apply (not_found_halts Scenario.pointer_not_found Scenario.config eq_refl
           "group/proj" "main" "data/model.bin" None Scenario.not_found);
    reflexivity.
Defined.

(* ================================================================= *)
(** ** The configuration block *)

Section Configuration.

Variable w : World.

Lemma environ_getitem_raise name e :
  environ_getitem w name = Raise e -> e = KeyError name.
Proof.
  unfold environ_getitem.
  destruct (dict_get (os_environ w) name); [discriminate |].
  destruct (dict_get (dotenv w) name); [discriminate |]. now intros [= <-].
Qed.

Lemma defined_false name :
  defined w name = false -> environ_getitem w name = Raise (KeyError name).
Proof.
  unfold defined. destruct (environ_getitem w name) as [v | e] eqn:E;
    [discriminate |].
  intros _. f_equal. eapply environ_getitem_raise, E.
Qed.

Lemma defined_true name :
  defined w name = true -> exists v, environ_getitem w name = Ok v.
Proof.
  unfold defined. destruct (environ_getitem w name) as [v | e];
    [now exists v | discriminate].
Qed.

(** C10: when one of the four required variables is absent, the run is one
    error line that names the first absent variable, in the order the script
    reads them, and the exit status 1; no call reaches the network. *)
Theorem missing_variable_exits :
  forallb (defined w) required = false ->
  exists before name after,
    required = (before ++ name :: after)%list
    /\ forallb (defined w) before = true
    /\ defined w name = false
    /\ run w = ([LogError ("Please setup required env variable: '"
                             ++ name ++ "'")], 1)
    /\ http_calls (fst (run w)) = [].
Proof.
  unfold required. cbn [forallb]. intros H.
  destruct (defined w "GIT_HOST") eqn:E1.
  2: { exists [], "GIT_HOST", ["GIT_TOKEN"; "GIT_USER"; "GIT_PWD"].
       assert (R : run w = ([LogError
                 "Please setup required env variable: 'GIT_HOST'"], 1)).
       { unfold run, load_config. now rewrite (defined_false _ E1). }
       repeat split; try assumption. now rewrite R. }
  destruct (defined_true _ E1) as (v1 & V1).
  destruct (defined w "GIT_TOKEN") eqn:E2.
  2: { exists ["GIT_HOST"], "GIT_TOKEN", ["GIT_USER"; "GIT_PWD"].
       assert (R : run w = ([LogError
                 "Please setup required env variable: 'GIT_TOKEN'"], 1)).
       { unfold run, load_config. now rewrite V1, (defined_false _ E2). }
       repeat split; try assumption.
       - cbn [forallb]. now rewrite E1.
       - now rewrite R. }
  destruct (defined_true _ E2) as (v2 & V2).
  destruct (defined w "GIT_USER") eqn:E3.
  2: { exists ["GIT_HOST"; "GIT_TOKEN"], "GIT_USER", ["GIT_PWD"].
       assert (R : run w = ([LogError
                 "Please setup required env variable: 'GIT_USER'"], 1)).
       { unfold run, load_config.
         now rewrite V1, V2, (defined_false _ E3). }
       repeat split; try assumption.
       - cbn [forallb]. now rewrite E1, E2.
       - now rewrite R. }
  destruct (defined_true _ E3) as (v3 & V3).
  destruct (defined w "GIT_PWD") eqn:E4; [discriminate |].
  exists ["GIT_HOST"; "GIT_TOKEN"; "GIT_USER"], "GIT_PWD", [].
  assert (R : run w = ([LogError
            "Please setup required env variable: 'GIT_PWD'"], 1)).
  { unfold run, load_config.
    now rewrite V1, V2, V3, (defined_false _ E4). }
  repeat split; try assumption.
  - cbn [forallb]. now rewrite E1, E2, E3.
  - now rewrite R.
Qed.

End Configuration.

Lemma missing_variable_exits_witness :
  exists before name after,
    required = (before ++ name :: after)%list
    /\ forallb (defined Scenario.no_token) before = true
    /\ defined Scenario.no_token name = false
    /\ run Scenario.no_token
       = ([LogError ("Please setup required env variable: '"
                       ++ name ++ "'")], 1)
    /\ http_calls (fst (run Scenario.no_token)) = [].
Proof.
  apply (missing_variable_exits Scenario.no_token). reflexivity.
Defined.

Example no_token_names_GIT_TOKEN :
  run Scenario.no_token
  = ([LogError "Please setup required env variable: 'GIT_TOKEN'"], 1).
Proof. reflexivity. Qed.

(* ================================================================= *)
(** ** The batch negotiation *)

Section Batch.

Variable w : World.
Variable cfg : Config.
Variable args : Args.

(** C5, as the code has it: when the batch endpoint answers with an object
    whose "objects" member is an empty array, the negotiation raises the
    [IndexError] of the interpreter, "list index out of range". *)
Theorem empty_objects_index_error oid size n r data t :
  Py.int size = Some n ->
  http w (batch_call cfg args oid n) = Responds r ->
  raise_for_status r = Ok tt ->
  resp_json r = inl data ->
  getitem data "objects" = Ok (JArr []) ->
  fst (get_lfs_downloand_info w cfg args oid size t)
  = Raise (IndexError "list index out of range").
Proof.
  intros Hn Hw Hs Hj Ho. unfold get_lfs_downloand_info.
  unfold bind at 1. unfold emit at 1.
  unfold bind at 1. unfold lift at 1. unfold int_of_str. rewrite Hn.
  unfold bind at 1.
  unfold batch_call in Hw.
  pose proof (fun Hm => request_ok w _ _ _ _ _
                (t ++ [LogInfo "Get download info"])%list r Hm Hw Hs)
    as H.
  specialize (H eq_refl).
  destruct (request w _ _ _ _ _ _) as [[x | e] t']; cbn [fst] in H;
    [| discriminate].
  injection H as ->. rewrite Hj.
  unfold bind at 1. unfold lift at 1. rewrite Ho.
  reflexivity.
Qed.

End Batch.

Lemma empty_objects_index_error_witness :
  fst (get_lfs_downloand_info Scenario.no_objects Scenario.config
         Scenario.arguments "sha256" "42" [])
  = Raise (IndexError "list index out of range").
Proof.
  apply (empty_objects_index_error Scenario.no_objects Scenario.config
           Scenario.arguments "sha256" "42" 42 (Scenario.grant [])
           (JObj [("objects", JArr [])]) []); reflexivity.
Defined.

(** C5, as stated, fails: with no object in the answer the negotiation fails
    by the index-out-of-range error itself, and that is the text the run
    logs. *)
Lemma empty_objects_not_descriptive :
  (exists e,
     fst (get_lfs_downloand_info Scenario.no_objects Scenario.config
            Scenario.arguments "sha256" "42" []) = Raise e
     /\ Cls.is_IndexError (exn_class e) = true
     /\ Cls.is_RuntimeError (exn_class e) = false)
  /\ last (fst (run Scenario.no_objects)) (LogInfo "")
     = LogError "Unexpected Error: list index out of range".
Proof.
  split; [| reflexivity].
  exists (IndexError "list index out of range"). now repeat split.
Qed.

(* ================================================================= *)
(** ** The download *)

Section Download.

Variable w : World.

Lemma written_app path t1 : forall t2 before,
  written path before (t1 ++ t2)%list
  = written path (written path before t1) t2.
Proof.
  induction t1 as [| ev t1 IH]; intros t2 before; [reflexivity |].
  destruct ev; cbn [written app]; apply IH.
Qed.


Lemma write_chunks_trace output chunks : forall t,
  write_chunks output chunks t
  = (Ok tt, (t ++ map (Write output) chunks)%list).
Proof.
  induction chunks as [| c chunks IH]; intros t; cbn [write_chunks map].
  - unfold ret. now rewrite app_nil_r.
  - unfold bind, emit. rewrite IH, <- app_assoc. reflexivity.
Qed.


(** Below [2^53] the total of the progress display is the number of whole
    chunks the header announces. *)
Lemma num_bars_small n :
  0 <= n < 2 ^ 53 -> Py.int_truediv_pow2 n 10 = Some (n / 1024).
Proof.
  intros [H0 H1]. unfold Py.int_truediv_pow2.
  rewrite (Z.abs_eq n H0).
  destruct (Z.eqb_spec n 0) as [-> | Hn]; [reflexivity |].
  assert (Hl : Z.log2 n < 53) by (apply Z.log2_lt_pow2; lia).
  destruct (Z.leb_spec (Z.log2 n + 1 - 53) 0) as [_ | Hc]; [| lia].
  destruct (Z.leb_spec (2 ^ (1024 + 10)) n) as [Hbig | _].
  - exfalso. assert (2 ^ 53 < 2 ^ (1024 + 10))
      by (apply Z.pow_lt_mono_r; lia). lia.
  - rewrite Z.shiftr_div_pow2 by lia.
    rewrite (Z.sgn_pos n) by lia. f_equal.
    change (2 ^ 10) with 1024. lia.
Qed.

End Download.



(* ================================================================= *)
(** ** Certificate verification *)

Section Verification.

Variable w : World.

Lemma preserves_ret {A} (a : A) : preserves (ret a).
Proof. now intros t H. Qed.

Lemma preserves_raise {A} (e : Exn) : preserves (@raise A e).
Proof. now intros t H. Qed.

Lemma preserves_lift {A} (r : Result A) : preserves (lift r).
Proof. now intros t H. Qed.

Lemma preserves_emit ev : as_written ev -> preserves (emit ev).
Proof.
  intros Hev t H. unfold emit. cbn [snd].
  apply Forall_app. split; [exact H | now constructor].
Qed.

Lemma preserves_bind {A B} (m : M A) (f : A -> M B) :
  preserves m -> (forall a, preserves (f a)) -> preserves (bind m f).
Proof.
  intros Hm Hf t H. unfold bind. specialize (Hm t H).
  destruct (m t) as [[a | e] t']; cbn [snd] in *; [now apply Hf | exact Hm].
Qed.

Lemma preserves_try {A} (m : M A) (h : Exn -> M A) :
  preserves m -> (forall e, preserves (h e)) -> preserves (try_except m h).
Proof.
  intros Hm Hh t H. unfold try_except. specialize (Hm t H).
  destruct (m t) as [[a | e] t']; cbn [snd] in *; [exact Hm | now apply Hh].
Qed.

Lemma preserves_write_chunks output chunks :
  preserves (write_chunks output chunks).
Proof.
  intros t H. rewrite write_chunks_trace. cbn [snd].
  apply Forall_app. split; [exact H |].
  apply Forall_forall. intros ev Hin. apply in_map_iff in Hin.
  now destruct Hin as (c & <- & _).
Qed.

Lemma preserves_request path method header req_data timeout :
  preserves (request w path method header req_data timeout).
Proof.
  intros t H. destruct (supported method) eqn:Hm.
  - rewrite (request_trace w _ _ _ _ _ _ Hm).
    apply Forall_app. split; [exact H | now constructor].
  - now rewrite (request_unsupported w _ _ _ _ _ _ Hm).
Qed.

Lemma preserves_get_lfs_meta cfg args : preserves (get_lfs_meta w cfg args).
Proof.
  intros t H. rewrite get_lfs_meta_trace.
  apply Forall_app. split; [exact H | now repeat constructor].
Qed.

Ltac walk :=
  repeat first
    [ apply preserves_ret | apply preserves_raise | apply preserves_lift
    | apply preserves_request | apply preserves_write_chunks
    | apply preserves_emit; exact I
    | apply preserves_emit; reflexivity
    | apply preserves_bind; [| intros ? ]
    | match goal with
      | |- preserves (match ?x with _ => _ end) => destruct x
      end ].

Lemma preserves_get_lfs_downloand_info cfg args oid size :
  preserves (get_lfs_downloand_info w cfg args oid size).
Proof. unfold get_lfs_downloand_info. walk. Qed.

Lemma preserves_dl_target_file url header output :
  preserves (dl_target_file w url header output).
Proof. unfold dl_target_file, call. walk. Qed.

Lemma preserves_main cfg : preserves (main w cfg).
Proof.
  unfold main, pipeline. apply preserves_try.
  - apply preserves_bind; [unfold cli; walk | intros args].
    apply preserves_bind; [apply preserves_get_lfs_meta | intros meta].
    apply preserves_bind;
      [apply preserves_get_lfs_downloand_info | intros grant].
    apply preserves_dl_target_file.
  - intros e. walk.
Qed.

Lemma run_as_written : Forall as_written (fst (run w)).
Proof.
  unfold run. destruct (load_config w) as [cfg | ex].
  - pose proof (preserves_main cfg [] (Forall_nil _)) as H.
    now destruct (main w cfg []) as [[[] | e] t].
  - destruct (Cls.is_KeyError (exn_class ex)); now repeat constructor.
Qed.

Lemma http_calls_as_written t :
  Forall as_written t ->
  Forall (fun c => verifies c = is_streaming_get c) (http_calls t).
Proof.
  induction 1 as [| ev t Hev _ IH]; [constructor |].
  destruct ev; cbn [http_calls flat_map app]; try exact IH.
  constructor; [exact Hev | exact IH].
Qed.

(** C8, as the code has it: in every run, a call verifies certificates
    exactly when it is the streaming GET of the download; the calls through
    the wrapper are made with verification disabled. *)
Theorem verification_disabled_in_wrapper_only :
  Forall (fun c => verifies c = is_streaming_get c)
         (http_calls (fst (run w))).
Proof. apply http_calls_as_written, run_as_written. Qed.

End Verification.

(** C8, as stated, fails: in the end-to-end scenario the third call, the
    streaming GET, is made with certificate verification left on. *)
Lemma streaming_get_verifies :
  map verifies (http_calls (fst (run Scenario.happy))) = [false; false; true]
  /\ map is_streaming_get (http_calls (fst (run Scenario.happy)))
     = [false; false; true].
Proof. split; reflexivity. Qed.

(* ================================================================= *)
(** * Further properties of the script *)

(** ** The request wrapper, by outcome *)

Section WrapperOutcomes.

Variable w : World.

Lemma http_calls_app t1 t2 :
  http_calls (t1 ++ t2)%list = (http_calls t1 ++ http_calls t2)%list.
Proof. unfold http_calls. apply flat_map_app. Qed.

(** X1: [request] reaches the network at most once and never retries: a
    supported method costs exactly one call, whatever the answer; any other
    method is refused with "Unsupport method" before a call is made. *)
Theorem request_calls path method header req_data timeout t :
  http_calls (snd (request w path method header req_data timeout t))
  = (http_calls t
       ++ if supported method
          then [wrapper_call path method header req_data timeout]
          else [])%list
  /\ (if supported method then True
      else fst (request w path method header req_data timeout t)
           = Raise (RuntimeError ("Unsupport method: " ++ method))).
Proof.
  destruct (supported method) eqn:Hm.
  - split; [| exact I].
    rewrite (request_trace w _ _ _ _ _ _ Hm), http_calls_app. reflexivity.
  - rewrite (request_unsupported w _ _ _ _ _ _ Hm). cbn [fst snd].
    split; [now rewrite app_nil_r | reflexivity].
Qed.

(** X2: what [request] makes of a response depends on its status alone: 400
    to 499 is a "Client Error", 500 to 599 a "Server Error", both with the
    status, reason and URL in the text; every other status, a redirect or an
    informational one included, returns the response. *)
Theorem request_by_status path method header req_data timeout t r :
  supported method = true ->
  http w (wrapper_call path method header req_data timeout) = Responds r ->
  fst (request w path method header req_data timeout t)
  = if (400 <=? status_code r) && (status_code r <? 500) then
      Raise (RuntimeError ("Client Error: " ++ Py.str_of_int (status_code r)
                             ++ " Client Error: " ++ reason r
                             ++ " for url: " ++ url r))
    else if (500 <=? status_code r) && (status_code r <? 600) then
      Raise (RuntimeError ("Server Error: " ++ Py.str_of_int (status_code r)
                             ++ " Server Error: " ++ reason r
                             ++ " for url: " ++ url r))
    else Ok (Some r).
Proof.
  intros Hm Hw.
  destruct ((400 <=? status_code r) && (status_code r <? 500)) eqn:E4.
  - apply request_client_error; try assumption.
    apply andb_true_iff in E4. destruct E4 as [H1 H2].
    apply Z.leb_le in H1. apply Z.ltb_lt in H2. lia.
  - destruct ((500 <=? status_code r) && (status_code r <? 600)) eqn:E5.
    + apply request_server_error; try assumption.
      apply andb_true_iff in E5. destruct E5 as [H1 H2].
      apply Z.leb_le in H1. apply Z.ltb_lt in H2. lia.
    + apply request_ok; try assumption.
      unfold raise_for_status. now rewrite E4, E5.
Qed.

(** X3: whenever the library answers with a response or with an exception
    deriving from [Exception] (an [HTTPError] with its response), every
    exception that leaves [request] is a [RuntimeError]. *)
Theorem request_raises_RuntimeError path method header req_data timeout t e :
  ordinary (http w (wrapper_call path method header req_data timeout)) = true ->
  fst (request w path method header req_data timeout t) = Raise e ->
  exn_class e = Cls.RuntimeError.
Proof.
  intros Ho. destruct (supported method) eqn:Hm.
  2: { rewrite (request_unsupported w _ _ _ _ _ _ Hm). now intros [= <-]. }
  destruct (http w _) as [r | ex] eqn:Hw.
  - destruct (Z_lt_ge_dec (status_code r) 400) as [Hlo | Hlo];
      [| destruct (Z_lt_ge_dec (status_code r) 500) as [H4 | H4];
         [| destruct (Z_lt_ge_dec (status_code r) 600) as [H5 | H5]]].
    + rewrite (request_ok w _ _ _ _ _ t r Hm Hw); [discriminate |].
      unfold raise_for_status.
      now rewrite !out_of_range by lia.
    + rewrite (request_client_error w _ _ _ _ _ t r Hm Hw) by lia.
      now intros [= <-].
    + rewrite (request_server_error w _ _ _ _ _ t r Hm Hw) by lia.
      now intros [= <-].
    + rewrite (request_ok w _ _ _ _ _ t r Hm Hw); [discriminate |].
      unfold raise_for_status.
      now rewrite !out_of_range by lia.
  - cbn [ordinary] in Ho. apply andb_true_iff in Ho. destruct Ho as [He Hr].
    unfold request, call, bind, try_except, emit, lift, ret, raise.
    fold (supported method). rewrite Hm. cbn [negb].
    fold (wrapper_call path method header req_data timeout). rewrite Hw.
    destruct (Cls.is_connection_failure (exn_class ex));
      [now intros [= <-] |].
    destruct (Cls.is_HTTPError (exn_class ex)).
    + destruct (exn_response ex) as [r |]; [| discriminate].
      destruct ((400 <=? status_code r) && (status_code r <? 500));
        [now intros [= <-] |].
      destruct ((500 <=? status_code r) && (status_code r <? 600));
        [now intros [= <-] | discriminate].
    + rewrite He. now intros [= <-].
Qed.

End WrapperOutcomes.

Lemma request_by_status_witness :
  fst (request Scenario.pointer_not_found Scenario.meta_url "GET"
         (Some [("PRIVATE-TOKEN", "t0ken")]) None 30 [])
  = if (400 <=? status_code Scenario.not_found)
       && (status_code Scenario.not_found <? 500) then
      Raise (RuntimeError
               ("Client Error: "
                  ++ Py.str_of_int (status_code Scenario.not_found)
                  ++ " Client Error: " ++ reason Scenario.not_found
                  ++ " for url: " ++ url Scenario.not_found))
    else if (500 <=? status_code Scenario.not_found)
            && (status_code Scenario.not_found <? 600) then
      Raise (RuntimeError
               ("Server Error: "
                  ++ Py.str_of_int (status_code Scenario.not_found)
                  ++ " Server Error: " ++ reason Scenario.not_found
                  ++ " for url: " ++ url Scenario.not_found))
    else Ok (Some Scenario.not_found).
Proof.
  apply (request_by_status Scenario.pointer_not_found Scenario.meta_url "GET"
           (Some [("PRIVATE-TOKEN", "t0ken")]) None 30 []
           Scenario.not_found); reflexivity.
Defined.

Lemma request_raises_RuntimeError_witness :
  exn_class (RuntimeError (exn_str Scenario.refused)) = Cls.RuntimeError.
Proof.
  apply (request_raises_RuntimeError Scenario.connection_refused
           Scenario.meta_url "GET" None None 30 []
           (RuntimeError (exn_str Scenario.refused))); reflexivity.
Defined.

(* ================================================================= *)
(** ** The pointer parser on well-formed and on arbitrary bodies *)

Section ParserMore.

Lemma contains_app c a b :
  Py.contains c (a ++ b) = Py.contains c a || Py.contains c b.
Proof.
  induction a as [| x a IH]; cbn [Py.contains append]; [reflexivity |].
  now rewrite IH, orb_assoc.
Qed.

Lemma no_space_one_line s : no_space s = true -> one_line s = true.
Proof.
  unfold no_space, one_line.
  induction s as [| c s IH]; cbn [all_chars Py.contains]; [reflexivity |].
  intros H. apply andb_true_iff in H. destruct H as [Hc Hs].
  specialize (IH Hs). apply negb_true_iff in IH. rewrite IH, orb_false_r.
  apply negb_true_iff.
  destruct (Ascii.eqb_spec Py.newline c) as [<- | _]; [| reflexivity].
  vm_compute in Hc. discriminate.
Qed.

(** A first line without a line feed is the first thing the iteration
    yields, with the line feed that ends it. *)
Lemma lines_from_line a : forall cur b,
  one_line a = true ->
  Py.lines_from cur (a ++ LF ++ b)
  = (cur ++ a ++ LF) :: Py.lines_from "" b.
Proof.
  unfold one_line.
  induction a as [| c a IH]; intros cur b H.
  - cbn. reflexivity.
  - cbn [Py.contains] in H. apply negb_true_iff in H.
    apply orb_false_iff in H. destruct H as [Hc Ha].
    cbn [append Py.lines_from]. rewrite Ascii.eqb_sym, Hc.
    rewrite IH by now apply negb_true_iff.
    f_equal. rewrite append_assoc. reflexivity.
Qed.

Lemma StringIO_lines_line a b :
  one_line a = true ->
  Py.StringIO_lines (a ++ LF ++ b) = (a ++ LF) :: Py.StringIO_lines b.
Proof. intros H. unfold Py.StringIO_lines. now rewrite lines_from_line. Qed.

Lemma rstrip_app a : forall b,
  Py.rstrip (a ++ b)
  = match Py.rstrip b with
    | EmptyString => Py.rstrip a
    | r => a ++ r
    end.
Proof.
  induction a as [| c a IH]; intros b; cbn [append Py.rstrip].
  - now destruct (Py.rstrip b).
  - rewrite IH. destruct (Py.rstrip b) as [| d r]; [reflexivity |].
    now destruct a.
Qed.

Lemma rstrip_no_space s : no_space s = true -> Py.rstrip s = s.
Proof.
  unfold no_space.
  induction s as [| c s IH]; cbn [all_chars Py.rstrip]; [reflexivity |].
  intros H. apply andb_true_iff in H. destruct H as [Hc Hs].
  rewrite (IH Hs). apply negb_true_iff in Hc. rewrite Hc. now destruct s.
Qed.

(** Trimming a line made of a text that ends in no whitespace, a field
    without whitespace and the line feed gives the text and the field. *)
Lemma rstrip_field_LF a h :
  Py.rstrip a = a -> no_space h = true -> Py.rstrip (a ++ h ++ LF) = a ++ h.
Proof.
  intros Ha Hh. rewrite rstrip_app, rstrip_app.
  change (Py.rstrip LF) with EmptyString.
  rewrite (rstrip_no_space _ Hh). destruct h as [| c h].
  - rewrite Ha. now rewrite append_nil_r.
  - reflexivity.
Qed.

Lemma rstrip_token_LF a h :
  no_space h = true -> String.eqb h "" = false ->
  Py.rstrip (a ++ h ++ LF) = a ++ h.
Proof.
  intros Hh Hn. rewrite rstrip_app, rstrip_app.
  change (Py.rstrip LF) with EmptyString.
  rewrite (rstrip_no_space _ Hh). destruct h as [| c h];
    [discriminate | reflexivity].
Qed.

Lemma split_no_sep s sep :
  Py.contains sep s = false -> Py.split s sep = [s].
Proof.
  induction s as [| c s IH]; cbn [Py.contains Py.split]; [reflexivity |].
  intros H. apply orb_false_iff in H. destruct H as [Hc Hs].
  rewrite Ascii.eqb_sym, Hc, (IH Hs). reflexivity.
Qed.

Lemma split_ws_from_no_space s : forall cur,
  no_space s = true ->
  Py.split_ws_from cur s
  = if String.eqb (cur ++ s) "" then [] else [cur ++ s].
Proof.
  unfold no_space.
  induction s as [| c s IH]; intros cur H; cbn [Py.split_ws_from].
  - now rewrite append_nil_r.
  - cbn [all_chars] in H. apply andb_true_iff in H. destruct H as [Hc Hs].
    apply negb_true_iff in Hc. rewrite Hc, (IH _ Hs), append_assoc.
    reflexivity.
Qed.

Lemma meta_line_other st line :
  Py.startswith line "oid" = false ->
  Py.startswith line "size" = false ->
  meta_line st line = Ok st.
Proof. unfold meta_line. now intros -> ->. Qed.

Lemma meta_line_standard_oid st hash :
  no_space hash = true ->
  Py.contains ":" hash = false ->
  meta_line st ("oid sha256:" ++ hash ++ LF)
  = Ok {| l_oid := Some hash; l_size := l_size st |}.
Proof.
  intros Hs Hc. unfold meta_line.
  change (Py.startswith ("oid sha256:" ++ hash ++ LF) "oid") with true.
  cbv iota. unfold Py.strip.
  change (Py.lstrip ("oid sha256:" ++ hash ++ LF))
    with ("oid sha256:" ++ hash ++ LF).
  rewrite (rstrip_field_LF "oid sha256:" hash eq_refl Hs).
  change (Py.split ("oid sha256:" ++ hash) ":")
    with ("oid sha256" :: Py.split hash ":").
  now rewrite (split_no_sep _ _ Hc).
Qed.

Lemma meta_line_standard_size st size :
  no_space size = true ->
  String.eqb size "" = false ->
  meta_line st ("size " ++ size ++ LF)
  = Ok {| l_oid := l_oid st; l_size := Some size |}.
Proof.
  intros Hs Hn. unfold meta_line.
  change (Py.startswith ("size " ++ size ++ LF) "oid") with false.
  change (Py.startswith ("size " ++ size ++ LF) "size") with true.
  cbv iota. unfold Py.strip.
  change (Py.lstrip ("size " ++ size ++ LF)) with ("size " ++ size ++ LF).
  rewrite (rstrip_token_LF "size " size Hs Hn).
  unfold Py.split_ws.
  change (Py.split_ws_from "" ("size " ++ size))
    with ("size" :: Py.split_ws_from "" size).
  rewrite (split_ws_from_no_space _ _ Hs). cbn [append]. now rewrite Hn.
Qed.

(** X4: on a pointer file as git-lfs writes it (a version line, "oid
    sha256:" and the hash, "size " and the size, each line ended by a line
    feed), the parser returns the hash and the size, whatever the version
    line says. *)
Theorem parse_pointer_standard version hash size :
  one_line version = true ->
  no_space hash = true ->
  Py.contains ":" hash = false ->
  no_space size = true ->
  String.eqb size "" = false ->
  parse_pointer (standard_pointer version hash size) = Ok (hash, size).
Proof.
  intros Hv Hh Hc Hs Hn. unfold parse_pointer, standard_pointer.
  replace ("version " ++ version ++ LF ++ "oid sha256:" ++ hash ++ LF
             ++ "size " ++ size ++ LF)
    with (("version " ++ version) ++ LF
            ++ (("oid sha256:" ++ hash) ++ LF
                  ++ (("size " ++ size) ++ LF ++ "")))
    by reflexivity.
  rewrite StringIO_lines_line.
  2: { unfold one_line in *. rewrite contains_app.
       apply negb_true_iff in Hv. now rewrite Hv. }
  rewrite StringIO_lines_line.
  2: { apply no_space_one_line in Hh. unfold one_line in *.
       rewrite contains_app. apply negb_true_iff in Hh. now rewrite Hh. }
  rewrite StringIO_lines_line.
  2: { apply no_space_one_line in Hs. unfold one_line in *.
       rewrite contains_app. apply negb_true_iff in Hs. now rewrite Hs. }
  change (Py.StringIO_lines "") with (@nil string).
  cbn [meta_loop].
  rewrite meta_line_other by reflexivity.
  rewrite append_assoc, (meta_line_standard_oid _ _ Hh Hc).
  rewrite append_assoc, (meta_line_standard_size _ _ Hs Hn).
  reflexivity.
Qed.

End ParserMore.

Lemma parse_pointer_standard_witness :
  parse_pointer
    (standard_pointer "https://git-lfs.github.com/spec/v1"
       "4d7a214614ab2935c943f9e0ff69d22eadbb8f32b1258daaa5e2ca24d17e2393"
       "12345")
  = Ok ("4d7a214614ab2935c943f9e0ff69d22eadbb8f32b1258daaa5e2ca24d17e2393",
        "12345").
Proof.
  apply (parse_pointer_standard "https://git-lfs.github.com/spec/v1"
           "4d7a214614ab2935c943f9e0ff69d22eadbb8f32b1258daaa5e2ca24d17e2393"
           "12345"); reflexivity.
Defined.

Section ParserInvariant.

Lemma split_fields_no_sep s sep : forall f,
  In f (Py.split s sep) -> Py.contains sep f = false.
Proof.
  induction s as [| c s IH]; intros f; cbn [Py.split].
  - intros [<- | []]. reflexivity.
  - destruct (Ascii.eqb c sep) eqn:Hc.
    + intros [<- | H]; [reflexivity | now apply IH].
    + destruct (Py.split s sep) as [| h t].
      * intros [<- | []]. cbn [Py.contains].
        now rewrite Ascii.eqb_sym, Hc.
      * intros [<- | H].
        -- cbn [Py.contains]. rewrite Ascii.eqb_sym, Hc.
           apply IH. now left.
        -- apply IH. now right.
Qed.

Lemma eqb_empty_false s : String.eqb s "" = false -> s <> "".
Proof. intros H ->. discriminate. Qed.

Lemma split_ws_from_tokens s : forall cur f,
  no_space cur = true ->
  In f (Py.split_ws_from cur s) -> no_space f = true /\ f <> "".
Proof.
  induction s as [| c s IH]; intros cur f Hcur; cbn [Py.split_ws_from].
  - destruct (String.eqb cur "") eqn:E; [intros [] |].
    intros [<- | []]. split; [exact Hcur | now apply eqb_empty_false].
  - destruct (Py.isspace c) eqn:Hc.
    + destruct (String.eqb cur "") eqn:E.
      * now apply IH.
      * intros [<- | H].
        -- split; [exact Hcur | now apply eqb_empty_false].
        -- now apply (IH "").
    + apply IH. unfold no_space in *. rewrite all_chars_app, Hcur.
      cbn [all_chars]. now rewrite Hc.
Qed.

Lemma meta_line_clean st line st' :
  clean st -> meta_line st line = Ok st' -> clean st'.
Proof.
  intros [Ho Hs]. unfold meta_line, item_1.
  destruct (Py.startswith line "oid").
  - destruct (nth_error _ 1) as [v |] eqn:E; [| discriminate].
    intros [= <-]. split; cbn [l_oid l_size]; [| exact Hs].
    intros oid [= <-]. eapply split_fields_no_sep, nth_error_In, E.
  - destruct (Py.startswith line "size"); [| now intros [= <-]].
    destruct (nth_error _ 1) as [v |] eqn:E; [| discriminate].
    intros [= <-]. split; cbn [l_oid l_size]; [exact Ho |].
    intros size [= <-].
    eapply (split_ws_from_tokens _ ""); [reflexivity |].
    eapply nth_error_In, E.
Qed.

Lemma meta_loop_clean lines : forall st st',
  clean st -> meta_loop st lines = Ok st' -> clean st'.
Proof.
  induction lines as [| l lines IH]; cbn [meta_loop]; intros st st' Hc.
  - now intros [= <-].
  - destruct (meta_line st l) as [s1 |] eqn:E; [| discriminate].
    apply IH. eapply meta_line_clean; eassumption.
Qed.

(** X5: whatever the body, an object id the parser returns holds no colon,
    and a size it returns is not empty and holds no whitespace. *)
Theorem parse_pointer_clean body oid size :
  parse_pointer body = Ok (oid, size) ->
  Py.contains ":" oid = false /\ no_space size = true /\ size <> "".
Proof.
  unfold parse_pointer.
  destruct (meta_loop _ _) as [st |] eqn:E; [| discriminate].
  assert (Hc : clean st).
  { eapply meta_loop_clean; [| exact E]. split; discriminate. }
  destruct Hc as [Ho Hs].
  destruct (l_oid st) as [o |] eqn:Eo; [| discriminate].
  destruct (l_size st) as [z |] eqn:Es; [| discriminate].
  intros [= <- <-]. split; [now apply Ho | now apply Hs].
Qed.

(** X6: a line that starts with neither "oid" nor "size" is ignored: taking
    it out of the body changes nothing of what the parser returns or
    raises. *)
Theorem parse_pointer_ignores_line body body' before line after :
  Py.StringIO_lines body = (before ++ line :: after)%list ->
  Py.StringIO_lines body' = (before ++ after)%list ->
  Py.startswith line "oid" = false ->
  Py.startswith line "size" = false ->
  parse_pointer body = parse_pointer body'.
Proof.
  intros E E' Ho Hs. unfold parse_pointer. rewrite E, E'.
  rewrite !meta_loop_app.
  destruct (meta_loop _ before) as [st |]; [| reflexivity].
  cbn [meta_loop]. unfold meta_line at 1. now rewrite Ho, Hs.
Qed.

End ParserInvariant.

Lemma parse_pointer_clean_witness :
  Py.contains ":" "sha256" = false /\ no_space "42" = true /\ "42" <> "".
Proof.
  apply (parse_pointer_clean Scenario.pointer_text "sha256" "42").
  reflexivity.
Defined.

Lemma parse_pointer_ignores_line_witness :
  parse_pointer Scenario.no_oid_line = parse_pointer ("size 42" ++ LF).
Proof.
  apply (parse_pointer_ignores_line Scenario.no_oid_line ("size 42" ++ LF)
           [] ("version https://git-lfs.github.com/spec/v1" ++ LF)
           ["size 42" ++ LF]); reflexivity.
Defined.

(* ================================================================= *)
(** ** The batch negotiation, by answer *)

Section BatchAnswers.

Variable w : World.
Variable cfg : Config.
Variable args : Args.

(** The negotiation logs one line, then either stops at a size that is no
    integer or issues its one call. *)
Lemma negotiation_trace oid size t :
  match Py.int size with
  | None =>
      get_lfs_downloand_info w cfg args oid size t
      = (Raise (ValueError ("invalid literal for int() with base 10: "
                              ++ Py.take 200 (Py.repr size))),
         (t ++ [LogInfo "Get download info"])%list)
  | Some n =>
      snd (get_lfs_downloand_info w cfg args oid size t)
      = (t ++ [LogInfo "Get download info";
               Http (batch_call cfg args oid n)])%list
  end.
Proof.
  unfold get_lfs_downloand_info, int_of_str.
  unfold bind at 1. unfold emit at 1. unfold bind at 1. unfold lift at 1.
  destruct (Py.int size) as [n |]; [| reflexivity].
  unfold bind at 1.
  pose proof (request_trace w (batch_path cfg args) "POST"
                (Some [("Authorization", BASIC_AUTH cfg);
                       ("Content-Type", "application/json")])
                (Some [("operation", JStr "download");
                       ("objects",
                        JArr [JObj [("oid", JStr oid); ("size", JInt n)]]);
                       ("transfers",
                        JArr [JStr "lfs-standalone-file"; JStr "basic"]);
                       ("ref", JObj [("name", JStr (REF args))])]) 30
                (t ++ [LogInfo "Get download info"])%list eq_refl) as H.
  fold (batch_call cfg args oid n) in H.
  destruct (request w _ _ _ _ _ _) as [[[r |] | e] t'];
    cbn [fst snd] in *; subst t'; rewrite <- app_assoc; cbn [app];
    [| reflexivity | reflexivity].
  unfold bind, lift, ret, raise.
  destruct (resp_json r) as [data | msg]; [| reflexivity].
  destruct (getitem data "objects") as [objects |]; [| reflexivity].
  destruct (getitem_0 objects) as [obj |]; [| reflexivity].
  destruct (getitem obj "actions") as [actions |]; [| reflexivity].
  destruct (getitem actions "download") as [download |]; [| reflexivity].
  destruct (getitem download "href"); [| reflexivity].
  now destruct (getitem download "header").
Qed.

(** Once the endpoint has answered with an accepted status and a body that
    decodes, the outcome is read off the decoded body alone. *)
Lemma negotiation_reads_body oid size n r data t :
  Py.int size = Some n ->
  http w (batch_call cfg args oid n) = Responds r ->
  raise_for_status r = Ok tt ->
  resp_json r = inl data ->
  fst (get_lfs_downloand_info w cfg args oid size t)
  = match getitem data "objects" with
    | Raise e => Raise e
    | Ok objects =>
    match getitem_0 objects with
    | Raise e => Raise e
    | Ok obj =>
    match getitem obj "actions" with
    | Raise e => Raise e
    | Ok actions =>
    match getitem actions "download" with
    | Raise e => Raise e
    | Ok download =>
    match getitem download "href" with
    | Raise e => Raise e
    | Ok href =>
    match getitem download "header" with
    | Raise e => Raise e
    | Ok header => Ok (href, header)
    end end end end end end.
Proof.
  intros Hn Hw Hs Hj. unfold get_lfs_downloand_info.
  unfold bind at 1. unfold emit at 1.
  unfold bind at 1. unfold lift at 1. unfold int_of_str. rewrite Hn.
  unfold bind at 1.
  unfold batch_call in Hw.
  pose proof (fun Hm => request_ok w _ _ _ _ _
                (t ++ [LogInfo "Get download info"])%list r Hm Hw Hs)
    as H.
  specialize (H eq_refl).
  destruct (request w _ _ _ _ _ _) as [[x | e] t']; cbn [fst] in H;
    [| discriminate].
  injection H as ->. rewrite Hj.
  unfold bind, lift, ret, raise.
  destruct (getitem data "objects") as [objects |]; [| reflexivity].
  destruct (getitem_0 objects) as [obj |]; [| reflexivity].
  destruct (getitem obj "actions") as [actions |]; [| reflexivity].
  destruct (getitem actions "download") as [download |]; [| reflexivity].
  destruct (getitem download "href"); [| reflexivity].
  now destruct (getitem download "header").
Qed.

(** X7: a size that [int] does not accept stops the negotiation with the
    [ValueError] of [int], whose text ends with the first 200 characters of
    the [repr] of the size, before anything is sent: the trace gains its log
    line and no call. *)
Theorem negotiation_bad_size oid size t :
  Py.int size = None ->
  get_lfs_downloand_info w cfg args oid size t
  = (Raise (ValueError ("invalid literal for int() with base 10: "
                          ++ Py.take 200 (Py.repr size))),
     (t ++ [LogInfo "Get download info"])%list)
  /\ http_calls (snd (get_lfs_downloand_info w cfg args oid size t))
     = http_calls t.
Proof.
  intros Hn. pose proof (negotiation_trace oid size t) as H.
  rewrite Hn in H. rewrite H. cbn [snd]. split; [reflexivity |].
  rewrite http_calls_app. cbn. apply app_nil_r.
Qed.

(** X8: with an integer size the negotiation issues exactly one call, the
    POST to the batch endpoint with Basic authentication and a body that
    asks for the one object by id and size under the ref, whatever the
    endpoint answers. *)
Theorem negotiation_one_post oid size n t :
  Py.int size = Some n ->
  snd (get_lfs_downloand_info w cfg args oid size t)
  = (t ++ [LogInfo "Get download info";
           Http (requests_request
                   {| p_method := "POST";
                      p_url := "http://" ++ GIT_HOST cfg ++ "/"
                                 ++ PROJECT args
                                 ++ ".git/info/lfs/objects/batch";
                      p_headers :=
                        Some [("Authorization", BASIC_AUTH cfg);
                              ("Content-Type", "application/json")];
                      p_timeout := 30;
                      p_verify := false;
                      p_json :=
                        Some [("operation", JStr "download");
                              ("objects",
                               JArr [JObj [("oid", JStr oid);
                                           ("size", JInt n)]]);
                              ("transfers",
                               JArr [JStr "lfs-standalone-file";
                                     JStr "basic"]);
                              ("ref", JObj [("name", JStr (REF args))])]
                   |})])%list.
Proof.
  intros Hn. pose proof (negotiation_trace oid size t) as H.
  rewrite Hn in H. rewrite H. reflexivity.
Qed.

(** X9: the grant is read off the first object of the answer: its
    [actions.download.href] and [actions.download.header] are returned, and
    the objects after the first play no part. *)
Theorem negotiation_first_object
    oid size n r data obj rest actions download href header t :
  Py.int size = Some n ->
  http w (batch_call cfg args oid n) = Responds r ->
  raise_for_status r = Ok tt ->
  resp_json r = inl data ->
  getitem data "objects" = Ok (JArr (obj :: rest)) ->
  getitem obj "actions" = Ok actions ->
  getitem actions "download" = Ok download ->
  getitem download "href" = Ok href ->
  getitem download "header" = Ok header ->
  fst (get_lfs_downloand_info w cfg args oid size t) = Ok (href, header).
Proof.
  intros Hn Hw Hs Hj Ho Ha Hd Hh Hhd.
  rewrite (negotiation_reads_body oid size n r data t Hn Hw Hs Hj), Ho.
  cbn [getitem_0]. now rewrite Ha, Hd, Hh, Hhd.
Qed.

(** X10: when the first object of the answer has no "actions" member, as
    when the server reports an error for the object, the negotiation fails
    with the [KeyError] of that key. *)
Theorem negotiation_no_actions oid size n r data members rest t :
  Py.int size = Some n ->
  http w (batch_call cfg args oid n) = Responds r ->
  raise_for_status r = Ok tt ->
  resp_json r = inl data ->
  getitem data "objects" = Ok (JArr (JObj members :: rest)) ->
  has_key (JObj members) "actions" = false ->
  fst (get_lfs_downloand_info w cfg args oid size t)
  = Raise (KeyError "actions").
Proof.
  intros Hn Hw Hs Hj Ho Hk.
  rewrite (negotiation_reads_body oid size n r data t Hn Hw Hs Hj), Ho.
  cbn [getitem_0 getitem]. cbn [has_key] in Hk.
  now destruct (dict_get members "actions").
Qed.

(** X11: a download action with an "href" but without a "header" member
    yields no grant: the negotiation fails with the [KeyError] of
    "header". *)
Theorem negotiation_no_header
    oid size n r data obj rest actions members href t :
  Py.int size = Some n ->
  http w (batch_call cfg args oid n) = Responds r ->
  raise_for_status r = Ok tt ->
  resp_json r = inl data ->
  getitem data "objects" = Ok (JArr (obj :: rest)) ->
  getitem obj "actions" = Ok actions ->
  getitem actions "download" = Ok (JObj members) ->
  getitem (JObj members) "href" = Ok href ->
  has_key (JObj members) "header" = false ->
  fst (get_lfs_downloand_info w cfg args oid size t)
  = Raise (KeyError "header").
Proof.
  intros Hn Hw Hs Hj Ho Ha Hd Hh Hk.
  rewrite (negotiation_reads_body oid size n r data t Hn Hw Hs Hj), Ho.
  cbn [getitem_0]. rewrite Ha, Hd, Hh.
  cbn [getitem]. cbn [has_key] in Hk.
  now destruct (dict_get members "header").
Qed.

End BatchAnswers.

Lemma negotiation_bad_size_witness :
  get_lfs_downloand_info Scenario.happy Scenario.config Scenario.arguments
    "sha256" "12kb" []
  = (Raise (ValueError ("invalid literal for int() with base 10: "
                          ++ Py.take 200 (Py.repr "12kb"))),
     ([] ++ [LogInfo "Get download info"])%list)
  /\ http_calls (snd (get_lfs_downloand_info Scenario.happy Scenario.config
                        Scenario.arguments "sha256" "12kb" []))
     = http_calls [].
Proof.
  apply (negotiation_bad_size Scenario.happy Scenario.config
           Scenario.arguments "sha256" "12kb" []). reflexivity.
Defined.

Lemma negotiation_one_post_witness :
  http_calls (snd (get_lfs_downloand_info Scenario.object_missing
                     Scenario.config Scenario.arguments "sha256" "42" []))
  = [batch_call Scenario.config Scenario.arguments "sha256" 42].
Proof.
  rewrite (negotiation_one_post Scenario.object_missing Scenario.config
             Scenario.arguments "sha256" "42" 42 []); reflexivity.
Defined.

Lemma negotiation_first_object_witness :
  fst (get_lfs_downloand_info Scenario.two_objects Scenario.config
         Scenario.arguments "sha256" "42" [])
  = Ok (JStr "https://storage/x", JObj []).
Proof.
  apply (negotiation_first_object Scenario.two_objects Scenario.config
           Scenario.arguments "sha256" "42" 42
           (Scenario.grant [Scenario.object; Scenario.object_error])
           (JObj [("objects",
                   JArr [Scenario.object; Scenario.object_error])])
           Scenario.object [Scenario.object_error]
           (JObj [("download",
                   JObj [("href", JStr "https://storage/x");
                         ("header", JObj [])])])
           (JObj [("href", JStr "https://storage/x"); ("header", JObj [])])
           (JStr "https://storage/x") (JObj []) []); reflexivity.
Defined.

Lemma negotiation_no_actions_witness :
  fst (get_lfs_downloand_info Scenario.object_missing Scenario.config
         Scenario.arguments "sha256" "42" [])
  = Raise (KeyError "actions").
Proof.
  apply (negotiation_no_actions Scenario.object_missing Scenario.config
           Scenario.arguments "sha256" "42" 42
           (Scenario.grant [Scenario.object_error])
           (JObj [("objects", JArr [Scenario.object_error])])
           [("oid", JStr "sha256"); ("size", JInt 42);
            ("error", JObj [("code", JInt 404);
                            ("message", JStr "Object does not exist")])]
           [] []); reflexivity.
Defined.

Lemma negotiation_no_header_witness :
  fst (get_lfs_downloand_info Scenario.grant_without_header Scenario.config
         Scenario.arguments "sha256" "42" [])
  = Raise (KeyError "header").
Proof.
  apply (negotiation_no_header Scenario.grant_without_header Scenario.config
           Scenario.arguments "sha256" "42" 42
           (Scenario.grant [Scenario.object_no_header])
           (JObj [("objects", JArr [Scenario.object_no_header])])
           Scenario.object_no_header []
           (JObj [("download", JObj [("href", JStr "https://storage/x")])])
           [("href", JStr "https://storage/x")]
           (JStr "https://storage/x") []); reflexivity.
Defined.

(* ================================================================= *)
(** ** The download, by answer *)

Section DownloadAnswers.

Variable w : World.

Lemma http_calls_writes output chunks :
  http_calls (map (Write output) chunks) = [].
Proof. induction chunks as [| c chunks IH]; [reflexivity | exact IH]. Qed.

(** The download with everything in place: the result and the whole
    trace. *)
Lemma dl_target_file_ok url header output r length n num_bars t :
  http w (requests_get url header true) = Responds r ->
  raise_for_status r = Ok tt ->
  headers_getitem (headers r) "Content-Length" = Ok length ->
  Py.int length = Some n ->
  Py.int_truediv_pow2 n 10 = Some num_bars ->
  open_wb w output = None ->
  dl_target_file w url header output t
  = (match iter_error r with
     | Some (c, msg) => Raise (exn c msg)
     | None => Ok tt
     end,
     (t ++ [LogInfoFmt "Download file: " url;
            Http (requests_get url header true);
            Open output; Progress num_bars output]
        ++ map (Write output) (iter_content r))%list).
Proof.
  intros Hw Hs Hh Hn Hq Ho.
  unfold dl_target_file, call, int_of_str, int_div_chunk.
  unfold bind at 1. unfold emit at 1.
  unfold bind at 1. unfold bind at 1. unfold emit at 1.
  rewrite Hw. unfold ret at 1.
  unfold bind at 1. unfold lift at 1. rewrite Hs.
  unfold bind at 1. unfold lift at 1. rewrite Hh.
  unfold bind at 1. unfold lift at 1. rewrite Hn.
  unfold bind at 1. unfold lift at 1. rewrite Hq.
  rewrite Ho.
  unfold bind at 1. unfold emit at 1.
  unfold bind at 1. unfold emit at 1.
  unfold bind at 1. rewrite write_chunks_trace.
  rewrite <- !app_assoc. cbn [app].
  destruct (iter_error r) as [[c msg] |]; reflexivity.
Qed.

(** Up to the response: the log line and the call, then what the library
    answers. *)
Lemma dl_target_file_answer url header output t :
  dl_target_file w url header output t
  = match http w (requests_get url header true) with
    | Fails e =>
        (Raise e, (t ++ [LogInfoFmt "Download file: " url;
                         Http (requests_get url header true)])%list)
    | Responds r =>
        ((lift (raise_for_status r) ;;;
          length <- lift (headers_getitem (headers r) "Content-Length") ;;
          n <- lift (int_of_str length) ;;
          num_bars <- lift (int_div_chunk n) ;;
          match open_wb w output with
          | Some e => raise e
          | None =>
              emit (Open output) ;;;
              emit (Progress num_bars output) ;;;
              write_chunks output (iter_content r) ;;;
              match iter_error r with
              | Some (c, msg) => raise (exn c msg)
              | None => ret tt
              end
          end)
           (t ++ [LogInfoFmt "Download file: " url;
                  Http (requests_get url header true)])%list)
    end.
Proof.
  unfold dl_target_file, call.
  unfold bind at 1. unfold emit at 1.
  unfold bind at 1. unfold bind at 1. unfold emit at 1.
  rewrite <- app_assoc. cbn [app].
  destruct (http w _) as [r | e]; reflexivity.
Qed.

(** X12: an error status on the download is not turned into a
    [RuntimeError] as in [request]: the [HTTPError] of the library leaves
    [dl_target_file] as it is, with its response, and the destination file
    is not opened. *)
Theorem download_error_status url header output r t :
  http w (requests_get url header true) = Responds r ->
  400 <= status_code r < 600 ->
  exists e,
    dl_target_file w url header output t
    = (Raise e, (t ++ [LogInfoFmt "Download file: " url;
                       Http (requests_get url header true)])%list)
    /\ exn_class e = Cls.HTTPError
    /\ exn_response e = Some r
    /\ written output None (snd (dl_target_file w url header output t))
       = written output None t.
Proof.
  intros Hw Hs.
  assert (H : exists e, raise_for_status r = Raise e
                        /\ exn_class e = Cls.HTTPError
                        /\ exn_response e = Some r).
  { unfold raise_for_status.
    destruct (Z_lt_ge_dec (status_code r) 500) as [H5 | H5].
    - rewrite in_range by lia. now eexists.
    - rewrite out_of_range by lia. rewrite in_range by lia. now eexists. }
  destruct H as (e & He & Hc & Hr). exists e.
  assert (E : dl_target_file w url header output t
              = (Raise e, (t ++ [LogInfoFmt "Download file: " url;
                                 Http (requests_get url header true)])%list)).
  { rewrite dl_target_file_answer, Hw. unfold bind, lift. now rewrite He. }
  rewrite E. cbn [snd]. repeat split; try assumption.
  now rewrite written_app.
Qed.

(** X13: a Content-Length value that [int] does not accept ends the
    download with the [ValueError] of [int], whose text ends with the first
    200 characters of the [repr] of the value, after the call and before the
    destination file is opened. *)
Theorem download_bad_content_length url header output r length t :
  http w (requests_get url header true) = Responds r ->
  raise_for_status r = Ok tt ->
  headers_getitem (headers r) "Content-Length" = Ok length ->
  Py.int length = None ->
  dl_target_file w url header output t
  = (Raise (ValueError ("invalid literal for int() with base 10: "
                          ++ Py.take 200 (Py.repr length))),
     (t ++ [LogInfoFmt "Download file: " url;
            Http (requests_get url header true)])%list)
  /\ written output None (snd (dl_target_file w url header output t))
     = written output None t.
Proof.
  intros Hw Hs Hh Hn.
  assert (E : dl_target_file w url header output t
              = (Raise (ValueError
                          ("invalid literal for int() with base 10: "
                             ++ Py.take 200 (Py.repr length))),
                 (t ++ [LogInfoFmt "Download file: " url;
                        Http (requests_get url header true)])%list)).
  { rewrite dl_target_file_answer, Hw. unfold bind, lift, int_of_str.
    now rewrite Hs, Hh, Hn. }
  rewrite E. cbn [snd]. split; [reflexivity |]. now rewrite written_app.
Qed.

(** The download reaches the network once, by its streaming GET. *)
Lemma dl_target_file_calls url header output t :
  http_calls (snd (dl_target_file w url header output t))
  = (http_calls t ++ [requests_get url header true])%list.
Proof.
  rewrite dl_target_file_answer.
  destruct (http w _) as [r | e]; cbn [snd];
    [| now rewrite http_calls_app].
  unfold bind, lift, emit, ret, raise.
  destruct (raise_for_status r) as [[] |];
    [| cbn [snd]; now rewrite http_calls_app].
  destruct (headers_getitem _ _) as [length |];
    [| cbn [snd]; now rewrite http_calls_app].
  destruct (int_of_str length) as [n |];
    [| cbn [snd]; now rewrite http_calls_app].
  destruct (int_div_chunk n) as [num_bars |];
    [| cbn [snd]; now rewrite http_calls_app].
  destruct (open_wb w output) as [e |];
    [cbn [snd]; now rewrite http_calls_app |].
  rewrite write_chunks_trace.
  destruct (iter_error r) as [[c msg] |]; cbn [snd];
    rewrite !http_calls_app, http_calls_writes; cbn;
    now rewrite !app_nil_r.
Qed.

(** X14: when the Content-Length announces fewer than [2^53] bytes, the
    total of the progress display is the number of whole 1024-byte chunks
    in that length, rounded down. *)
Theorem download_progress_total url header output r length n t :
  http w (requests_get url header true) = Responds r ->
  raise_for_status r = Ok tt ->
  headers_getitem (headers r) "Content-Length" = Ok length ->
  Py.int length = Some n ->
  0 <= n < 2 ^ 53 ->
  open_wb w output = None ->
  In (Progress (n / 1024) output)
     (snd (dl_target_file w url header output t))
  /\ forall total desc,
       In (Progress total desc) (snd (dl_target_file w url header output t)) ->
       In (Progress total desc) t \/ (total = n / 1024 /\ desc = output).
Proof.
  intros Hw Hs Hh Hn Hr Ho.
  rewrite (dl_target_file_ok url header output r length n (n / 1024) t
             Hw Hs Hh Hn (num_bars_small n Hr) Ho).
  cbn [snd]. split.
  - apply in_or_app. right. cbn. auto.
  - intros total desc H. apply in_app_or in H. destruct H as [H | H];
      [now left | right].
    cbn [app In] in H.
    destruct H as [H | [H | [H | [H | H]]]]; try discriminate.
    + now injection H as <- <-.
    + apply in_map_iff in H. destruct H as (c & H & _). discriminate.
Qed.

End DownloadAnswers.

Lemma download_error_status_witness :
  exists e,
    dl_target_file Scenario.download_forbidden (JStr "https://storage/x")
      (JObj []) Scenario.output []
    = (Raise e, ([] ++ [LogInfoFmt "Download file: "
                          (JStr "https://storage/x");
                        Http (requests_get (JStr "https://storage/x")
                                (JObj []) true)])%list)
    /\ exn_class e = Cls.HTTPError
    /\ exn_response e = Some Scenario.forbidden
    /\ written Scenario.output None
         (snd (dl_target_file Scenario.download_forbidden
                 (JStr "https://storage/x") (JObj []) Scenario.output []))
       = written Scenario.output None [].
Proof.
  apply (download_error_status Scenario.download_forbidden
           (JStr "https://storage/x") (JObj []) Scenario.output
           Scenario.forbidden []); [reflexivity | cbn; lia].
Defined.

Lemma download_bad_content_length_witness :
  dl_target_file Scenario.chunked (JStr "https://storage/x") (JObj [])
    Scenario.output []
  = (Raise (ValueError ("invalid literal for int() with base 10: "
                          ++ Py.take 200 (Py.repr "chunked"))),
     ([] ++ [LogInfoFmt "Download file: " (JStr "https://storage/x");
             Http (requests_get (JStr "https://storage/x") (JObj [])
                     true)])%list)
  /\ written Scenario.output None
       (snd (dl_target_file Scenario.chunked (JStr "https://storage/x")
               (JObj []) Scenario.output []))
     = written Scenario.output None [].
Proof.
  apply (download_bad_content_length Scenario.chunked
           (JStr "https://storage/x") (JObj []) Scenario.output
           (Scenario.blob [("Content-Length", "chunked")]) "chunked" []);
    reflexivity.
Defined.

Lemma download_progress_total_witness :
  In (Progress (5000 / 1024) Scenario.output)
     (snd (dl_target_file Scenario.large (JStr "https://storage/x")
             (JObj []) Scenario.output []))
  /\ forall total desc,
       In (Progress total desc)
          (snd (dl_target_file Scenario.large (JStr "https://storage/x")
                  (JObj []) Scenario.output [])) ->
       In (Progress total desc) []
       \/ (total = 5000 / 1024 /\ desc = Scenario.output).
Proof.
  apply (download_progress_total Scenario.large (JStr "https://storage/x")
           (JObj []) Scenario.output
           (Scenario.blob [("content-length", "5000")]) "5000" 5000 []);
    try reflexivity. lia.
Defined.

(* ================================================================= *)
(** ** Whole runs *)

Section Runs.

Variable w : World.



(** The calls of the pipeline come in the order of the script. *)
Lemma pipeline_calls cfg :
  sequential (http_calls (snd (pipeline w cfg []))) = true.
Proof.
  unfold pipeline. unfold bind at 1. unfold cli.
  destruct (argv w) as [project ref file output_dir | code];
    [| reflexivity].
  unfold ret at 1. fold (args_of w project ref file output_dir).
  set (args := args_of w project ref file output_dir).
  unfold bind at 1.
  pose proof (get_lfs_meta_trace w cfg args []) as H1.
  destruct (get_lfs_meta w cfg args []) as [[meta | e] t1];
    cbn [snd] in H1; subst t1; [| reflexivity].
  unfold bind at 1.
  pose proof (negotiation_trace w cfg args (fst meta) (snd meta)
                ([] ++ [LogInfo "Get LFS meta-data";
                        Http (meta_call cfg args)])%list) as H2.
  destruct (Py.int (snd meta)) as [n |].
  - destruct (get_lfs_downloand_info w cfg args _ _ _) as [[grant | e] t2];
      cbn [snd] in H2; subst t2; [| reflexivity].
    rewrite dl_target_file_calls. reflexivity.
  - rewrite H2. reflexivity.
Qed.

(** X15: in every run the script reaches the network at most three times
    and in one order: the GET of the pointer, then the POST of the batch,
    then the streaming GET; no call is repeated and none is made out of
    turn. *)
Theorem run_calls_sequential :
  sequential (http_calls (fst (run w))) = true.
Proof.
  unfold run. destruct (load_config w) as [cfg | ex].
  - unfold main, try_except.
    pose proof (pipeline_calls cfg) as H.
    destruct (pipeline w cfg []) as [[[] | e] t]; cbn [snd] in H;
      [exact H |].
    destruct (Cls.is_Exception (exn_class e)); [| exact H].
    unfold emit. cbn [fst]. rewrite http_calls_app. cbn.
    now rewrite app_nil_r.
  - now destruct (Cls.is_KeyError (exn_class ex)).
Qed.


(** X17: when argparse ends the process, as it does for [--help] or for a
    command line it rejects, the run logs nothing, calls nothing and exits
    with the status argparse chose: the handler of the last [try] does not
    catch the exit. *)
Theorem run_argparse_exit cfg code :
  load_config w = Ok cfg ->
  argv w = Exits code ->
  run w = ([], code).
Proof.
  intros Hc Ha. unfold run, main, try_except, pipeline. rewrite Hc.
  unfold bind at 1. unfold cli. rewrite Ha. reflexivity.
Qed.

End Runs.


Lemma run_argparse_exit_witness : run Scenario.help_requested = ([], 0).
Proof.
  apply (run_argparse_exit Scenario.help_requested Scenario.config 0);
    reflexivity.
Defined.

(* ================================================================= *)
(** ** The project segment of the URL and the name of the output file *)

Section Names.

Lemma all_chars_contains p s c :
  all_chars p s = true -> p c = false -> Py.contains c s = false.
Proof.
  intros Hs Hc.
  induction s as [| d s IH]; cbn [all_chars Py.contains] in *;
    [reflexivity |].
  apply andb_true_iff in Hs. destruct Hs as [Hd Hs].
  rewrite (IH Hs), orb_false_r.
  destruct (Ascii.eqb_spec c d) as [<- | _]; [| reflexivity].
  now rewrite Hc in Hd.
Qed.

(** X19: whatever the project path holds, its place in the raw-file URL is
    one path segment: what [quote_plus] returns has no slash, no blank, no
    question mark, no number sign and no ampersand. *)
Theorem quote_plus_one_segment project :
  Py.contains "/" (Py.quote_plus project) = false
  /\ Py.contains " " (Py.quote_plus project) = false
  /\ Py.contains "?" (Py.quote_plus project) = false
  /\ Py.contains "#" (Py.quote_plus project) = false
  /\ Py.contains "&" (Py.quote_plus project) = false.
Proof.
  pose proof (quote_plus_encoded project) as H.
  repeat split; apply (all_chars_contains _ _ _ H); reflexivity.
Qed.

Lemma plus_encode_unreserved c :
  Py.always_safe (Py.ord c) = true -> plus_encode c = String c "".
Proof.
  destruct c as [[] [] [] [] [] [] [] []]; vm_compute;
    intros H; (reflexivity || discriminate H).
Qed.

(** X20: a project path made of letters, digits, underscores, dots, hyphens
    and tildes only goes into the URL unchanged. *)
Theorem quote_plus_unreserved project :
  all_chars (fun c => Py.always_safe (Py.ord c)) project = true ->
  Py.quote_plus project = project.
Proof.
  rewrite quote_plus_each.
  induction project as [| c s IH]; cbn [all_chars encode_each];
    [reflexivity |].
  intros H. apply andb_true_iff in H. destruct H as [Hc Hs].
  now rewrite (plus_encode_unreserved _ Hc), (IH Hs).
Qed.

Lemma split_last_after_sep a sep : forall b,
  last (Py.split (a ++ String sep b) sep) ""
  = last (Py.split b sep) "".
Proof.
  induction a as [| c a IH]; intros b; cbn [append Py.split].
  - rewrite Ascii.eqb_refl.
    destruct (split_cons b sep) as (h & t & ->). reflexivity.
  - destruct (Ascii.eqb c sep).
    + destruct (split_cons (a ++ String sep b) sep) as (h & t & E).
      rewrite <- IH, E. reflexivity.
    + assert (Hc : Py.contains sep (a ++ String sep b) = true).
      { rewrite contains_app. cbn [Py.contains].
        rewrite Ascii.eqb_refl. apply orb_true_r. }
      destruct (split_contains _ _ Hc) as (x & y & rest & E).
      rewrite <- IH, E. reflexivity.
Qed.

Lemma last_In (l : list string) : l <> [] -> In (last l "") l.
Proof.
  induction l as [| x l IH]; [easy |]. intros _.
  destruct l as [| y l]; [now left |].
  right. apply IH. discriminate.
Qed.

(** X21: the name the download is written under is the part of the file
    path after its last slash: it holds no slash itself, and for a path
    [dir/name] it is [name]. *)
Theorem output_base_name file dir name :
  Py.contains "/" name = false ->
  Py.contains "/" (Py.last_field file "/") = false
  /\ Py.last_field (dir ++ "/" ++ name) "/" = name.
Proof.
  intros H. unfold Py.last_field. split.
  - apply (split_fields_no_sep file "/"). apply last_In.
    destruct (split_cons file "/") as (h & t & ->). discriminate.
  - change (dir ++ "/" ++ name) with (dir ++ String "/" name).
    now rewrite split_last_after_sep, (split_no_sep _ _ H).
Qed.

End Names.

Lemma quote_plus_unreserved_witness : Py.quote_plus "my-proj_1.0" = "my-proj_1.0".
Proof. apply (quote_plus_unreserved "my-proj_1.0"). reflexivity. Defined.

Lemma output_base_name_witness :
  Py.contains "/" (Py.last_field "data/sub/model.bin" "/") = false
  /\ Py.last_field ("data/sub" ++ "/" ++ "model.bin") "/" = "model.bin".
Proof.
  apply (output_base_name "data/sub/model.bin" "data/sub" "model.bin").
  reflexivity.
Defined.

(* ================================================================= *)
(** ** What a run logs and what it writes *)

Section Kept.

Variable w : World.
Variable P : Event -> Prop.
Hypothesis P_info : forall msg, P (LogInfo msg).
Hypothesis P_fmt : forall prefix v, P (LogInfoFmt prefix v).
Hypothesis P_http : forall c, P (Http c).

Lemma keeps_ret {A} (a : A) : keeps P (ret a).
Proof. now intros t H. Qed.

Lemma keeps_raise {A} (e : Exn) : keeps P (@raise A e).
Proof. now intros t H. Qed.

Lemma keeps_lift {A} (r : Result A) : keeps P (lift r).
Proof. now intros t H. Qed.

Lemma keeps_emit ev : P ev -> keeps P (emit ev).
Proof.
  intros Hev t H. unfold emit. cbn [snd].
  apply Forall_app. split; [exact H | now constructor].
Qed.

Lemma keeps_bind {A B} (m : M A) (f : A -> M B) :
  keeps P m -> (forall a, keeps P (f a)) -> keeps P (bind m f).
Proof.
  intros Hm Hf t H. unfold bind. specialize (Hm t H).
  destruct (m t) as [[a | e] t']; cbn [snd] in *; [now apply Hf | exact Hm].
Qed.

Lemma keeps_request path method header req_data timeout :
  keeps P (request w path method header req_data timeout).
Proof.
  intros t H. destruct (supported method) eqn:Hm.
  - rewrite (request_trace w _ _ _ _ _ _ Hm).
    apply Forall_app. split; [exact H | now constructor].
  - now rewrite (request_unsupported w _ _ _ _ _ _ Hm).
Qed.

Lemma keeps_get_lfs_meta cfg args : keeps P (get_lfs_meta w cfg args).
Proof.
  intros t H. rewrite get_lfs_meta_trace.
  apply Forall_app. split; [exact H | now repeat constructor].
Qed.

Lemma keeps_get_lfs_downloand_info cfg args oid size :
  keeps P (get_lfs_downloand_info w cfg args oid size).
Proof.
  intros t H.
  pose proof (negotiation_trace w cfg args oid size t) as E.
  destruct (Py.int size) as [n |]; rewrite E; cbn [snd];
    apply Forall_app; (split; [exact H | now repeat constructor]).
Qed.

Lemma keeps_write_chunks output chunks :
  (forall chunk, P (Write output chunk)) ->
  keeps P (write_chunks output chunks).
Proof.
  intros Hw t H. rewrite write_chunks_trace. cbn [snd].
  apply Forall_app. split; [exact H |].
  apply Forall_forall. intros ev Hin. apply in_map_iff in Hin.
  destruct Hin as (c & <- & _). apply Hw.
Qed.

Lemma keeps_dl_target_file url header output :
  P (Open output) ->
  (forall total, P (Progress total output)) ->
  (forall chunk, P (Write output chunk)) ->
  keeps P (dl_target_file w url header output).
Proof.
  intros Ho Hp Hw. unfold dl_target_file, call.
  repeat first
    [ apply keeps_ret | apply keeps_raise | apply keeps_lift
    | apply keeps_write_chunks; exact Hw
    | apply keeps_emit;
      first [apply P_info | apply P_fmt | apply P_http | exact Ho | apply Hp]
    | apply keeps_bind; [| intros ? ]
    | match goal with
      | |- keeps P (match ?x with _ => _ end) => destruct x
      end ].
Qed.

Lemma keeps_pipeline cfg :
  P (Open (destination w)) ->
  (forall total, P (Progress total (destination w))) ->
  (forall chunk, P (Write (destination w) chunk)) ->
  keeps P (pipeline w cfg).
Proof.
  unfold destination. intros Ho Hp Hw t H.
  unfold pipeline. unfold bind at 1. unfold cli.
  destruct (argv w) as [project ref file output_dir | code];
    [| exact H].
  unfold ret at 1. fold (args_of w project ref file output_dir).
  refine (keeps_bind _ _ _ _ t H);
    [apply keeps_get_lfs_meta | intros meta].
  apply keeps_bind; [apply keeps_get_lfs_downloand_info | intros grant].
  now apply keeps_dl_target_file.
Qed.

End Kept.

Section Reports.

Variable w : World.

(** X22: a run logs at most one error line, and when it does, the line is
    the last thing the run does: everything before it is free of error
    lines. *)
Theorem run_one_error_line :
  exists t,
    Forall quiet t
    /\ (fst (run w) = t \/ exists msg, fst (run w) = (t ++ [LogError msg])%list).
Proof.
  unfold run. destruct (load_config w) as [cfg | ex].
  - unfold main, try_except.
    pose proof (keeps_pipeline w quiet (fun _ => I) (fun _ _ => I)
                  (fun _ => I) cfg I (fun _ => I) (fun _ => I) []
                  (Forall_nil _)) as H.
    destruct (pipeline w cfg []) as [[[] | e] t]; cbn [snd] in H.
    + exists t. split; [exact H | now left].
    + exists t. split; [exact H |].
      destruct (Cls.is_Exception (exn_class e)); [right | now left].
      unfold emit. cbn [fst]. now eexists.
  - exists []. split; [constructor | right].
    destruct (Cls.is_KeyError (exn_class ex)); cbn [fst]; now eexists.
Qed.

(** X23: a run opens and writes one file at most, the base name of the
    requested file under the output directory: no event of the trace opens
    or writes any other path. *)
Theorem run_touches_destination_only :
  Forall (touches_only (destination w)) (fst (run w)).
Proof.
  unfold run. destruct (load_config w) as [cfg | ex].
  - unfold main, try_except.
    pose proof (keeps_pipeline w (touches_only (destination w))
                  (fun _ => I) (fun _ _ => I) (fun _ => I) cfg
                  eq_refl (fun _ => I) (fun _ => eq_refl) []
                  (Forall_nil _)) as H.
    destruct (pipeline w cfg []) as [[[] | e] t]; cbn [snd] in H;
      [exact H |].
    destruct (Cls.is_Exception (exn_class e)); [| exact H].
    unfold emit. cbn [fst]. apply Forall_app. split; [exact H |].
    now repeat constructor.
  - destruct (Cls.is_KeyError (exn_class ex)); now repeat constructor.
Qed.

End Reports.

Example int_of_str_long_literal :
  match int_of_str (Py.join (repeat "x" 300)) with
  | Raise e => String.length (exn_str e) = 240%nat
  | Ok _ => False
  end.
Proof. vm_compute. reflexivity. Qed.

(* ================================================================= *)
(** ** The configuration and its sources *)

Section Base64.

Lemma In_below n x : 0 <= x < Z.of_nat n -> In x (below n).
Proof.
  intros H. unfold below. apply in_map_iff. exists (Z.to_nat x).
  split; [lia | apply in_seq; lia].
Qed.

Lemma is_byte_below x : is_byte x = true -> In x (below 256).
Proof.
  unfold is_byte. intros H. apply andb_true_iff in H. destruct H as [H0 H1].
  apply Z.leb_le in H0. apply Z.ltb_lt in H1. apply In_below. lia.
Qed.

Lemma each_byte (P : Z -> bool) :
  forallb P (below 256) = true ->
  forall x, is_byte x = true -> P x = true.
Proof.
  intros H x Hx. rewrite forallb_forall in H. now apply H, is_byte_below.
Qed.

Lemma each_pair (P : Z -> Z -> bool) :
  forallb (fun x => forallb (P x) (below 256)) (below 256) = true ->
  forall x y, is_byte x = true -> is_byte y = true -> P x y = true.
Proof.
  intros H x y Hx Hy. rewrite forallb_forall in H.
  specialize (H x (is_byte_below x Hx)). rewrite forallb_forall in H.
  now apply H, is_byte_below.
Qed.

Lemma each_digit (P : Z -> bool) :
  forallb P (below 64) = true ->
  forall d, 0 <= d < 64 -> P d = true.
Proof.
  intros H d Hd. rewrite forallb_forall in H. apply H, In_below. lia.
Qed.

Lemma list_Z_eqb_eq l1 : forall l2, list_Z_eqb l1 l2 = true -> l1 = l2.
Proof.
  induction l1 as [| x l1 IH]; intros [| y l2]; cbn [list_Z_eqb];
    try discriminate; [reflexivity |].
  intros H. apply andb_true_iff in H. destruct H as [Hx Hl].
  apply Z.eqb_eq in Hx. subst y. f_equal. now apply IH.
Qed.

Lemma decoded_eq o l : decoded o l = true -> o = Some l.
Proof.
  destruct o as [l' |]; cbn [decoded]; [| discriminate].
  intros H. f_equal. now apply list_Z_eqb_eq.
Qed.

(** A digit of the alphabet decodes to its value and is no padding. *)
Lemma index_digit d :
  0 <= d < 64 ->
  b64_index (Py.b64_digit d) = Some d
  /\ Ascii.eqb (Py.b64_digit d) "=" = false.
Proof.
  intros Hd.
  pose proof (each_digit
                (fun d => match b64_index (Py.b64_digit d) with
                          | Some d' => d' =? d
                          | None => false
                          end
                          && negb (Ascii.eqb (Py.b64_digit d) "="))
                ltac:(vm_compute; reflexivity) d Hd) as H.
  cbv beta in H. apply andb_true_iff in H. destruct H as [H1 H2].
  split; [| now apply negb_true_iff].
  destruct (b64_index (Py.b64_digit d)) as [d' |]; [| discriminate].
  apply Z.eqb_eq in H1. now subst.
Qed.

Lemma decode_one a :
  is_byte a = true ->
  b64decode (String (Py.b64_digit (Z.shiftr a 2))
            (String (Py.b64_digit (Z.shiftl (Z.land a 3) 4)) "=="))
  = Some [a].
Proof.
  intros Ha. apply decoded_eq.
  exact (each_byte
           (fun a =>
              decoded
                (b64decode
                   (String (Py.b64_digit (Z.shiftr a 2))
                   (String (Py.b64_digit (Z.shiftl (Z.land a 3) 4)) "==")))
                [a])
           ltac:(vm_compute; reflexivity) a Ha).
Qed.

Lemma decode_two a b :
  is_byte a = true -> is_byte b = true ->
  b64decode
    (String (Py.b64_digit (Z.shiftr a 2))
    (String (Py.b64_digit (Z.lor (Z.shiftl (Z.land a 3) 4) (Z.shiftr b 4)))
    (String (Py.b64_digit (Z.shiftl (Z.land b 15) 2)) "=")))
  = Some [a; b].
Proof.
  intros Ha Hb. apply decoded_eq.
  exact (each_pair
           (fun a b =>
              decoded
                (b64decode
                   (String (Py.b64_digit (Z.shiftr a 2))
                   (String (Py.b64_digit
                              (Z.lor (Z.shiftl (Z.land a 3) 4)
                                     (Z.shiftr b 4)))
                   (String (Py.b64_digit (Z.shiftl (Z.land b 15) 2)) "="))))
                [a; b])
           ltac:(vm_compute; reflexivity) a b Ha Hb).
Qed.

(** The arithmetic of a full group, two bytes at a time. *)
Lemma sextet_bounds x y :
  is_byte x = true -> is_byte y = true ->
  0 <= Z.shiftr x 2 < 64
  /\ 0 <= Z.lor (Z.shiftl (Z.land x 3) 4) (Z.shiftr y 4) < 64
  /\ 0 <= Z.lor (Z.shiftl (Z.land x 15) 2) (Z.shiftr y 6) < 64
  /\ 0 <= Z.land y 63 < 64.
Proof.
  intros Hx Hy.
  pose proof (each_pair
                (fun x y =>
                   let e1 := Z.shiftr x 2 in
                   let e2 := Z.lor (Z.shiftl (Z.land x 3) 4) (Z.shiftr y 4) in
                   let e3 := Z.lor (Z.shiftl (Z.land x 15) 2) (Z.shiftr y 6) in
                   let e4 := Z.land y 63 in
                   (0 <=? e1) && (e1 <? 64) && ((0 <=? e2) && (e2 <? 64))
                   && ((0 <=? e3) && (e3 <? 64) && ((0 <=? e4) && (e4 <? 64))))
                ltac:(vm_compute; reflexivity) x y Hx Hy) as H.
  cbv beta zeta in H.
  repeat (apply andb_true_iff in H; destruct H as [H ?]).
  repeat match goal with
         | K : (_ <=? _) = true |- _ => apply Z.leb_le in K
         | K : (_ <? _) = true |- _ => apply Z.ltb_lt in K
         end.
  lia.
Qed.

Lemma sextet_first x y :
  is_byte x = true -> is_byte y = true ->
  Z.lor (Z.shiftl (Z.shiftr x 2) 2)
        (Z.shiftr (Z.lor (Z.shiftl (Z.land x 3) 4) (Z.shiftr y 4)) 4) = x
  /\ Z.land (Z.lor (Z.shiftl (Z.land x 3) 4) (Z.shiftr y 4)) 15
     = Z.shiftr y 4.
Proof.
  intros Hx Hy.
  pose proof (each_pair
                (fun x y =>
                   let e2 := Z.lor (Z.shiftl (Z.land x 3) 4) (Z.shiftr y 4) in
                   (Z.lor (Z.shiftl (Z.shiftr x 2) 2) (Z.shiftr e2 4) =? x)
                   && (Z.land e2 15 =? Z.shiftr y 4))
                ltac:(vm_compute; reflexivity) x y Hx Hy) as H.
  cbv beta zeta in H. apply andb_true_iff in H. destruct H as [H1 H2].
  split; now apply Z.eqb_eq.
Qed.

Lemma sextet_third x y :
  is_byte x = true -> is_byte y = true ->
  Z.shiftr (Z.lor (Z.shiftl (Z.land x 15) 2) (Z.shiftr y 6)) 2
  = Z.land x 15
  /\ Z.land (Z.lor (Z.shiftl (Z.land x 15) 2) (Z.shiftr y 6)) 3
     = Z.shiftr y 6.
Proof.
  intros Hx Hy.
  pose proof (each_pair
                (fun x y =>
                   let e3 := Z.lor (Z.shiftl (Z.land x 15) 2) (Z.shiftr y 6) in
                   (Z.shiftr e3 2 =? Z.land x 15)
                   && (Z.land e3 3 =? Z.shiftr y 6))
                ltac:(vm_compute; reflexivity) x y Hx Hy) as H.
  cbv beta zeta in H. apply andb_true_iff in H. destruct H as [H1 H2].
  split; now apply Z.eqb_eq.
Qed.

Lemma byte_halves x :
  is_byte x = true ->
  Z.lor (Z.shiftl (Z.shiftr x 4) 4) (Z.land x 15) = x
  /\ Z.lor (Z.shiftl (Z.shiftr x 6) 6) (Z.land x 63) = x.
Proof.
  intros Hx.
  pose proof (each_byte
                (fun x =>
                   (Z.lor (Z.shiftl (Z.shiftr x 4) 4) (Z.land x 15) =? x)
                   && (Z.lor (Z.shiftl (Z.shiftr x 6) 6) (Z.land x 63) =? x))
                ltac:(vm_compute; reflexivity) x Hx) as H.
  cbv beta in H. apply andb_true_iff in H. destruct H as [H1 H2].
  split; now apply Z.eqb_eq.
Qed.

Lemma decode_group a b c tail :
  is_byte a = true -> is_byte b = true -> is_byte c = true ->
  b64decode
    (String (Py.b64_digit (Z.shiftr a 2))
    (String (Py.b64_digit (Z.lor (Z.shiftl (Z.land a 3) 4) (Z.shiftr b 4)))
    (String (Py.b64_digit (Z.lor (Z.shiftl (Z.land b 15) 2) (Z.shiftr c 6)))
    (String (Py.b64_digit (Z.land c 63)) tail))))
  = match b64decode tail with
    | Some l => Some (a :: b :: c :: l)
    | None => None
    end.
Proof.
  intros Ha Hb Hc.
  destruct (sextet_bounds a b Ha Hb) as (B1 & B2 & _ & _).
  destruct (sextet_bounds b c Hb Hc) as (_ & _ & B3 & B4).
  destruct (sextet_first a b Ha Hb) as (F1 & F2).
  destruct (sextet_third b c Hb Hc) as (T1 & T2).
  destruct (byte_halves b Hb) as (Hb4 & _).
  destruct (byte_halves c Hc) as (_ & Hc6).
  destruct (index_digit _ B1) as (I1 & _).
  destruct (index_digit _ B2) as (I2 & _).
  destruct (index_digit _ B3) as (I3 & P3).
  destruct (index_digit _ B4) as (I4 & P4).
  cbn [b64decode]. rewrite I1, I2, P3, I3, P4, I4.
  cbv zeta. rewrite F1, F2, T1, T2, Hb4, Hc6. reflexivity.
Qed.

Lemma b64_groups_decode fuel : forall bs,
  (List.length bs < fuel)%nat ->
  Forall (fun b => is_byte b = true) bs ->
  b64decode (Py.b64_groups fuel bs) = Some bs.
Proof.
  induction fuel as [| fuel IH]; intros bs Hl Hb; [lia |].
  destruct bs as [| a [| b [| c rest]]]; cbn [Py.b64_groups].
  - reflexivity.
  - inversion Hb; subst. now apply decode_one.
  - inversion Hb as [| ? ? Ha Hb']; subst.
    inversion Hb' as [| ? ? Hb1 _]; subst. now apply decode_two.
  - inversion Hb as [| ? ? Ha Hb']; subst.
    inversion Hb' as [| ? ? Hb1 Hb'']; subst.
    inversion Hb'' as [| ? ? Hc1 Hr]; subst.
    rewrite decode_group by assumption.
    rewrite IH; [reflexivity | cbn [List.length] in Hl; lia | exact Hr].
Qed.

(** What [b64encode] returns decodes to the bytes it was given. *)
Lemma b64decode_b64encode bs :
  Forall (fun b => is_byte b = true) bs ->
  b64decode (Py.b64encode bs) = Some bs.
Proof. intros H. unfold Py.b64encode. apply b64_groups_decode; [lia | exact H]. Qed.

Lemma utf8_bytes s : Forall (fun b => is_byte b = true) (Py.utf8 s).
Proof.
  induction s as [| c s IH]; cbn [Py.utf8]; [constructor |].
  apply Forall_app. split; [| exact IH].
  destruct c as [[] [] [] [] [] [] [] []]; vm_compute; repeat constructor.
Qed.

End Base64.

Section Sources.

Variable w : World.

Lemma environ_getitem_process name v :
  dict_get (os_environ w) name = Some v -> environ_getitem w name = Ok v.
Proof. unfold environ_getitem. now intros ->. Qed.

Lemma environ_getitem_file name v :
  dict_get (os_environ w) name = None ->
  dict_get (dotenv w) name = Some v ->
  environ_getitem w name = Ok v.
Proof. unfold environ_getitem. now intros -> ->. Qed.

Lemma available_defined name : available w name = defined w name.
Proof.
  unfold available, defined, environ_getitem.
  destruct (dict_get (os_environ w) name); [reflexivity |].
  now destruct (dict_get (dotenv w) name).
Qed.

(** X18: when each of the four variables is defined by the process
    environment or by the environment file, the configuration loads; each
    of its values is the one of the process when the process defines the
    variable and the one of the file otherwise; and the Basic credentials
    are "Basic " and a text that base64 decodes to the UTF-8 bytes of
    user, colon, password. *)
Theorem load_config_sources :
  forallb (available w) required = true ->
  exists cfg payload,
    load_config w = Ok cfg
    /\ (forall name v,
          In name required ->
          dict_get (os_environ w) name = Some v ->
          config_value cfg name = Some v)
    /\ (forall name v,
          In name required ->
          dict_get (os_environ w) name = None ->
          dict_get (dotenv w) name = Some v ->
          config_value cfg name = Some v)
    /\ BASIC_AUTH cfg = "Basic " ++ payload
    /\ b64decode payload
       = Some (Py.utf8 (GIT_USER cfg ++ ":" ++ GIT_PWD cfg)).
Proof.
  unfold required. cbn [forallb]. rewrite !available_defined. intros H.
  apply andb_true_iff in H. destruct H as [H1 H].
  apply andb_true_iff in H. destruct H as [H2 H].
  apply andb_true_iff in H. destruct H as [H3 H].
  apply andb_true_iff in H. destruct H as [H4 _].
  destruct (defined_true w _ H1) as (host & E1).
  destruct (defined_true w _ H2) as (token & E2).
  destruct (defined_true w _ H3) as (user & E3).
  destruct (defined_true w _ H4) as (pwd & E4).
  eexists. exists (Py.b64encode (Py.utf8 (user ++ ":" ++ pwd))).
  split; [unfold load_config; rewrite E1, E2, E3, E4; reflexivity |].
  assert (K : forall name v,
             In name ["GIT_HOST"; "GIT_TOKEN"; "GIT_USER"; "GIT_PWD"] ->
             environ_getitem w name = Ok v ->
             config_value
               {| GIT_HOST := host; GIT_TOKEN := token; GIT_USER := user;
                  GIT_PWD := pwd;
                  BASIC_AUTH :=
                    "Basic " ++ Py.b64encode (Py.utf8 (user ++ ":" ++ pwd)) |}
               name = Some v).
  { intros name v Hin Hv.
    destruct Hin as [<- | [<- | [<- | [<- | []]]]]; cbn;
      congruence. }
  repeat split.
  - intros name v Hin Hv. apply K; [exact Hin |].
    now apply environ_getitem_process.
  - intros name v Hin Hn Hv. apply K; [exact Hin |].
    now apply environ_getitem_file.
  - cbn [GIT_USER GIT_PWD]. apply b64decode_b64encode, utf8_bytes.
Qed.

End Sources.

Example basic_credentials_decode :
  b64decode "dXNlcjpwd2Q=" = Some (Py.utf8 "user:pwd")
  /\ BASIC_AUTH Scenario.config = "Basic " ++ "dXNlcjpwd2Q=".
Proof. split; reflexivity. Qed.

Lemma load_config_sources_witness :
  exists cfg payload,
    load_config Scenario.happy = Ok cfg
    /\ (forall name v,
          In name required ->
          dict_get (os_environ Scenario.happy) name = Some v ->
          config_value cfg name = Some v)
    /\ (forall name v,
          In name required ->
          dict_get (os_environ Scenario.happy) name = None ->
          dict_get (dotenv Scenario.happy) name = Some v ->
          config_value cfg name = Some v)
    /\ BASIC_AUTH cfg = "Basic " ++ payload
    /\ b64decode payload
       = Some (Py.utf8 (GIT_USER cfg ++ ":" ++ GIT_PWD cfg)).
Proof.
  apply (load_config_sources Scenario.happy). reflexivity.
Defined.
